(** * Knowledge Engine: the token-metered tool invocation pipeline

    A shallow embedding of [src/api-client.ts] (the [WolframApiClient] class:
    the two query wrappers and the operational cache helpers) and of the two
    tool handlers registered by [WolframKnowledgeEngineMCP.init]
    ([getQuickAnswer] and [getDetailedAnalysis]).

    Asynchronous code is modelled sequentially: every [await] is a step of a
    state-and-exception monad over a [World] that holds the state of the
    collaborators (cache namespace, token database, network, UUID source) and
    a chronological log of the calls made to them.  Strings are sequences of
    code units below 256; numbers that the handlers use are integers. *)

From Stdlib Require Import ZArith String Ascii List Lia DecimalString.
From Stdlib Require Import DecimalPos DecimalZ.
From stdpp Require Import base option gmap strings list.

Local Open Scope Z_scope.

(** ** JavaScript values used by the code *)

(** A thrown value: either an [Error] object (only its [message] matters to
    the code) or any other value, represented by its [String(value)]. *)
Inductive Thrown : Type :=
| ErrorObject (message : string)
| OtherValue (shown : string).

(** The completion of an operation: a value, or a throw. *)
Inductive Result (A : Type) : Type :=
| Ok (a : A)
| Throw (e : Thrown).
Arguments Ok {A} a.
Arguments Throw {A} e.

(** [error instanceof Error ? error.message : String(error)] *)
Definition messageOrString (error : Thrown) : string :=
  match error with
  | ErrorObject m => m
  | OtherValue s => s
  end.

(** [error instanceof Error ? error.message : 'Unknown error'] *)
Definition messageOrUnknown (error : Thrown) : string :=
  match error with
  | ErrorObject m => m
  | OtherValue _ => "Unknown error"
  end.

(** Truthiness of a string: only the empty string is falsy. *)
Definition truthy (s : string) : bool :=
  match s with
  | EmptyString => false
  | String _ _ => true
  end.

(** Truthiness of [string | null | undefined]. *)
Definition truthy_opt (o : option string) : bool :=
  match o with
  | Some s => truthy s
  | None => false
  end.

(** Truthiness of [number | undefined] on integers: [0] is falsy. *)
Definition truthy_num (o : option Z) : bool :=
  match o with
  | Some n => negb (n =? 0)
  | None => false
  end.

(** [String(n)] / [n.toString()] for an integer [n]. *)
Definition String_of_number (n : Z) : string :=
  NilZero.string_of_int (Z.to_int n).

(** White space and line terminators of ECMAScript among the code units
    below 256: TAB, LF, VT, FF, CR, SP and NBSP. *)
Definition isWhiteSpace (c : ascii) : bool :=
  match N_of_ascii c with
  | 9%N | 10%N | 11%N | 12%N | 13%N | 32%N | 160%N => true
  | _ => false
  end.

Fixpoint trimStart (s : string) : string :=
  match s with
  | EmptyString => EmptyString
  | String c s' => if isWhiteSpace c then trimStart s' else s
  end.

Fixpoint trimEnd (s : string) : string :=
  match s with
  | EmptyString => EmptyString
  | String c s' =>
      let t := trimEnd s' in
      if isWhiteSpace c && negb (truthy t) then EmptyString else String c t
  end.

(** [String.prototype.trim] *)
Definition trim (s : string) : string := trimEnd (trimStart s).

(** All characters of [s] are white space. *)
Fixpoint allWhiteSpace (s : string) : bool :=
  match s with
  | EmptyString => true
  | String c s' => isWhiteSpace c && allWhiteSpace s'
  end.

(** The first, respectively the last, character of [s] is white space. *)
Definition startsWithWhiteSpace (s : string) : bool :=
  match s with
  | EmptyString => false
  | String c _ => isWhiteSpace c
  end.

Fixpoint endsWithWhiteSpace (s : string) : bool :=
  match s with
  | EmptyString => false
  | String c EmptyString => isWhiteSpace c
  | String _ s' => endsWithWhiteSpace s'
  end.

(** [haystack.includes(needle)] *)
Fixpoint includes (haystack needle : string) : bool :=
  String.prefix needle haystack ||
  match haystack with
  | EmptyString => false
  | String _ rest => includes rest needle
  end.

(** ** HTTP *)

(** A [URL] with its search parameters, as built by [new URL(..)] followed by
    [url.searchParams.set(..)]. *)
Record URL : Type := mkURL {
  href : string;
  searchParams : list (string * string)
}.

(** The [init] argument of [fetch]. *)
Record RequestInit : Type := mkRequestInit {
  method : string;
  headers : list (string * string)
}.

(** A [Response]: [text] is the completion of [response.text()]. *)
Record Response : Type := mkResponse {
  status : Z;
  statusText : string;
  text : Result string
}.

(** [response.ok]: the status is in the range 200-299. *)
Definition ok (r : Response) : bool :=
  (200 <=? status r) && (status r <=? 299).

(** ** Collaborator data *)

(** [BalanceCheck], the result of [checkBalance]. *)
Record BalanceCheck : Type := mkBalanceCheck {
  sufficient : bool;
  currentBalance : Z
}.

(** The [units] argument of the quick-answer tool
    ([z.enum(["metric", "imperial"])]). *)
Inductive Units : Type := metric | imperial.

Definition Units_string (u : Units) : string :=
  match u with
  | metric => "metric"
  | imperial => "imperial"
  end.

(** The [input] object passed to the ledger: [{ query, units }] or
    [{ query, maxchars }]. *)
Inductive ToolInput : Type :=
| QuickInput (query : string) (units : option Units)
| DetailedInput (query : string) (maxchars : option Z).

(** The arguments of one [consumeTokensWithRetry] call (after the database
    handle). *)
Record Consumption : Type := mkConsumption {
  c_userId : string;
  c_cost : Z;
  c_serverName : string;
  c_toolName : string;
  c_input : ToolInput;
  c_output : string;
  c_success : bool;
  c_actionId : string
}.

(** Options of [sanitizeOutput]. *)
Record SanitizeOptions : Type := mkSanitizeOptions {
  removeHtml : bool;
  removeControlChars : bool;
  normalizeWhitespace : bool;
  maxLength : Z
}.

(** Options of [redactPII]. *)
Record RedactOptions : Type := mkRedactOptions {
  redactEmails : bool;
  redactPhones : bool;
  redactCreditCards : bool;
  redactSSN : bool;
  redactBankAccounts : bool;
  redactPESEL : bool;
  redactPolishIdCard : bool;
  redactPolishPassport : bool;
  redactPolishPhones : bool;
  placeholder : string
}.

(** Result of [redactPII]. *)
Record RedactResult : Type := mkRedactResult {
  redacted : string;
  detectedPII : list string
}.

(** The value a tool handler returns:
    [{ content: [{ type, text }], isError? }]. *)
Record ContentItem : Type := mkContentItem {
  type : string;
  c_text : string
}.

Record ToolResponse : Type := mkToolResponse {
  content : list ContentItem;
  isError : option bool
}.

(** The authenticated context [this.props] (only [userId] is read). *)
Record Props : Type := mkProps {
  userId : option string
}.

(** ** The collaborators' interfaces

    Each collaborator owns a state of its own; an operation returns its
    completion and the collaborator's next state. *)

(** [KVNamespace]: [get(key)] and [put(key, value, { expirationTtl })]. *)
Class KVNamespace (K : Type) : Type := {
  kv_get : K -> string -> Result (option string) * K;
  kv_put : K -> string -> string -> Z -> Result unit * K
}.

(** The token ledger over the [TOKEN_DB] database ([./tokenConsumption]). *)
Class TokenLedger (D : Type) : Type := {
  checkBalance : D -> string -> Z -> Result BalanceCheck * D;
  consumeTokensWithRetry : D -> Consumption -> Result unit * D
}.

(** The network: the global [fetch]. *)
Class Network (N : Type) : Type := {
  fetch : N -> URL -> RequestInit -> Result Response * N
}.

(** [crypto.randomUUID()]. *)
Class Crypto (R : Type) : Type := {
  randomUUID : R -> string * R
}.

(** The pure helpers imported by the handlers: [sanitizeOutput] and
    [redactPII] of the security package, and
    [formatInsufficientTokensError] of [./tokenUtils]. *)
Class Helpers : Type := {
  sanitizeOutput : string -> SanitizeOptions -> Result string;
  redactPII : string -> RedactOptions -> Result RedactResult;
  formatInsufficientTokensError : string -> Z -> Z -> string
}.

(** ** The log of calls *)

Inductive Event : Type :=
| EvRandomUUID (id : string)
| EvCacheGet (key : string)
| EvCachePut (key value : string) (expirationTtl : Z)
| EvCheckBalance (user : string) (cost : Z)
| EvFetch (url : URL) (init : RequestInit)
| EvSanitize (raw : string) (opts : SanitizeOptions)
| EvRedact (sanitized : string) (opts : RedactOptions)
| EvConsume (c : Consumption).

Definition is_fetch (e : Event) : bool :=
  match e with EvFetch _ _ => true | _ => false end.

Definition is_consume (e : Event) : bool :=
  match e with EvConsume _ => true | _ => false end.

Definition is_cache_put (e : Event) : bool :=
  match e with EvCachePut _ _ _ => true | _ => false end.

Definition is_check_balance (e : Event) : bool :=
  match e with EvCheckBalance _ _ => true | _ => false end.

Definition is_random_uuid (e : Event) : bool :=
  match e with EvRandomUUID _ => true | _ => false end.

Definition is_sanitize (e : Event) : bool :=
  match e with EvSanitize _ _ => true | _ => false end.

Definition is_redact (e : Event) : bool :=
  match e with EvRedact _ _ => true | _ => false end.

Definition is_cache_get (e : Event) : bool :=
  match e with EvCacheGet _ => true | _ => false end.

(** Number of events of a kind in a log. *)
Fixpoint count (p : Event -> bool) (l : list Event) : nat :=
  match l with
  | [] => O
  | e :: l' => ((if p e then 1 else 0) + count p l')%nat
  end.

(** [before p q l]: every [q]-event of [l] has a [p]-event somewhere
    earlier in [l]. *)
Definition before (p q : Event -> bool) (l : list Event) : Prop :=
  forall pre e post, l = pre ++ e :: post -> q e = true ->
    exists e', In e' pre /\ p e' = true.

(** The same, decided: [seen] tells whether a [p]-event came already. *)
Fixpoint before_from (seen : bool) (p q : Event -> bool) (l : list Event)
  : bool :=
  match l with
  | [] => true
  | e :: l' => (negb (q e) || seen) && before_from (seen || p e) p q l'
  end.

(** ** The world and the monad of handlers *)

(** The state a handler runs against: [CACHE_KV], [TOKEN_DB], the network,
    the UUID source, and the log of calls made so far (oldest first). *)
Record World (K D N R : Type) : Type := mkWorld {
  CACHE_KV : K;
  TOKEN_DB : D;
  network : N;
  crypto : R;
  log : list Event
}.
Arguments mkWorld {K D N R} _ _ _ _ _.
Arguments CACHE_KV {K D N R} _.
Arguments TOKEN_DB {K D N R} _.
Arguments network {K D N R} _.
Arguments crypto {K D N R} _.
Arguments log {K D N R} _.

(** A computation: from a world to a completion and the next world.  A throw
    keeps the effects made before it. *)
Definition M (K D N R : Type) (A : Type) : Type :=
  World K D N R -> Result A * World K D N R.

Definition ret {K D N R A : Type} (a : A) : M K D N R A :=
  fun w => (Ok a, w).

Definition throw {K D N R A : Type} (e : Thrown) : M K D N R A :=
  fun w => (Throw e, w).

Definition bind {K D N R A B : Type} (m : M K D N R A)
  (f : A -> M K D N R B) : M K D N R B :=
  fun w =>
    match m w with
    | (Ok a, w') => f a w'
    | (Throw e, w') => (Throw e, w')
    end.

(** [try { body } catch (error) { handler }] *)
Definition try_catch {K D N R A : Type} (body : M K D N R A)
  (handler : Thrown -> M K D N R A) : M K D N R A :=
  fun w =>
    match body w with
    | (Ok a, w') => (Ok a, w')
    | (Throw e, w') => handler e w'
    end.

(** A pure call that may throw. *)
Definition lift {K D N R A : Type} (r : Result A) : M K D N R A :=
  fun w => (r, w).

Notation "'let!' x ':=' m 'in' k" := (bind m (fun x => k))
  (at level 10, x name, m at level 100, k at level 200).
Notation "'do!' m 'in' k" := (bind m (fun _ => k))
  (at level 10, m at level 100, k at level 200).

Section Engine.

Context {K D N R : Type}.
Context `{!KVNamespace K, !TokenLedger D, !Network N, !Crypto R, !Helpers}.

Local Abbreviation World := (World K D N R).
Local Abbreviation M := (M K D N R).

Definition set_CACHE_KV (k : K) (w : World) : World :=
  mkWorld k (TOKEN_DB w) (network w) (crypto w) (log w).

Definition set_TOKEN_DB (d : D) (w : World) : World :=
  mkWorld (CACHE_KV w) d (network w) (crypto w) (log w).

Definition set_network (n : N) (w : World) : World :=
  mkWorld (CACHE_KV w) (TOKEN_DB w) n (crypto w) (log w).

Definition set_crypto (r : R) (w : World) : World :=
  mkWorld (CACHE_KV w) (TOKEN_DB w) (network w) r (log w).

Definition record (e : Event) (w : World) : World :=
  mkWorld (CACHE_KV w) (TOKEN_DB w) (network w) (crypto w) (log w ++ [e]).

(** *** Calls to the collaborators, each recorded in the log *)

Definition cacheKV_get (key : string) : M (option string) :=
  fun w =>
    let '(r, k) := kv_get (CACHE_KV w) key in
    (r, record (EvCacheGet key) (set_CACHE_KV k w)).

Definition cacheKV_put (key value : string) (expirationTtl : Z) : M unit :=
  fun w =>
    let '(r, k) := kv_put (CACHE_KV w) key value expirationTtl in
    (r, record (EvCachePut key value expirationTtl) (set_CACHE_KV k w)).

Definition call_checkBalance (user : string) (cost : Z) : M BalanceCheck :=
  fun w =>
    let '(r, d) := checkBalance (TOKEN_DB w) user cost in
    (r, record (EvCheckBalance user cost) (set_TOKEN_DB d w)).

Definition call_consumeTokensWithRetry (c : Consumption) : M unit :=
  fun w =>
    let '(r, d) := consumeTokensWithRetry (TOKEN_DB w) c in
    (r, record (EvConsume c) (set_TOKEN_DB d w)).

Definition call_fetch (url : URL) (init : RequestInit) : M Response :=
  fun w =>
    let '(r, n) := fetch (network w) url init in
    (r, record (EvFetch url init) (set_network n w)).

Definition crypto_randomUUID : M string :=
  fun w =>
    let '(id, r) := randomUUID (crypto w) in
    (Ok id, record (EvRandomUUID id) (set_crypto r w)).

Definition call_sanitizeOutput (raw : string) (opts : SanitizeOptions)
  : M string :=
  fun w => (sanitizeOutput raw opts, record (EvSanitize raw opts) w).

Definition call_redactPII (s : string) (opts : RedactOptions)
  : M RedactResult :=
  fun w => (redactPII s opts, record (EvRedact s opts) w).

(** ** [WolframApiClient] ([src/api-client.ts]) *)

Definition GET_init : RequestInit :=
  mkRequestInit "GET" [("User-Agent", "Cloudflare-Workers/WolframMCP")].

(** The URL of the Short Answers request. *)
Definition quickAnswerURL (appId query : string) (units : option string)
  : URL :=
  mkURL "http://api.wolframalpha.com/v1/result"
    ([("appid", appId); ("i", query)] ++
     match units with
     | Some u => if truthy u then [("units", u)] else []
     | None => []
     end).

(** [WolframApiClient.getQuickAnswer(query, units?)] *)
Definition getQuickAnswer (appId query : string) (units : option string)
  : M string :=
  let url := quickAnswerURL appId query units in
  try_catch
    (let! response := call_fetch url GET_init in
     if status response =? 501 then
       throw (ErrorObject
         "WolframAlpha could not interpret the query. Please rephrase or check spelling.")
     else if status response =? 400 then
       throw (ErrorObject "Invalid query format. Please check your input.")
     else if status response =? 403 then
       throw (ErrorObject
         "Invalid WolframAlpha AppID. Please check configuration.")
     else if negb (ok response) then
       throw (ErrorObject
         ("WolframAlpha API error: " +:+ String_of_number (status response)
          +:+ " " +:+ statusText response))
     else
       let! answer := lift (text response) in
       ret (trim answer))
    (fun error =>
       throw (ErrorObject
         ("Failed to get quick answer: " +:+ messageOrUnknown error))).

(** The URL of the LLM API request. *)
Definition detailedAnalysisURL (appId query : string) (maxchars : option Z)
  : URL :=
  mkURL "https://www.wolframalpha.com/api/v1/llm-api"
    ([("appid", appId); ("input", query)] ++
     match maxchars with
     | Some m =>
         if truthy_num maxchars then [("maxchars", String_of_number m)]
         else []
     | None => []
     end).

(** [WolframApiClient.getDetailedAnalysis(query, maxchars?)] *)
Definition getDetailedAnalysis (appId query : string) (maxchars : option Z)
  : M string :=
  let url := detailedAnalysisURL appId query maxchars in
  try_catch
    (let! response := call_fetch url GET_init in
     if status response =? 501 then
       let! errorBody := lift (text response) in
       throw (ErrorObject
         ("WolframAlpha could not interpret the query. " +:+
          (if truthy errorBody then "Suggestions: " +:+ errorBody
           else "Please rephrase.")))
     else if status response =? 400 then
       throw (ErrorObject "Invalid query format. Please check your input.")
     else if status response =? 403 then
       throw (ErrorObject
         "Invalid WolframAlpha AppID. Please check configuration.")
     else if negb (ok response) then
       throw (ErrorObject
         ("WolframAlpha API error: " +:+ String_of_number (status response)
          +:+ " " +:+ statusText response))
     else
       let! detailedResult := lift (text response) in
       ret (trim detailedResult))
    (fun error =>
       throw (ErrorObject
         ("Failed to get detailed analysis: " +:+ messageOrUnknown error))).

(** [WolframApiClient.getCacheKey(toolName, query)] *)
Definition getCacheKey (toolName query : string) : string :=
  "wolfram:" +:+ toolName +:+ ":" +:+ query.

(** [WolframApiClient.checkCache(cacheKV, cacheKey)] *)
Definition checkCache (cacheKey : string) : M (option string) :=
  try_catch
    (let! cached := cacheKV_get cacheKey in
     if truthy_opt cached then ret cached else ret None)
    (fun _ => ret None).

(** [WolframApiClient.storeCache(cacheKV, cacheKey, result)] *)
Definition storeCache (cacheKey result : string) : M unit :=
  try_catch
    (cacheKV_put cacheKey result 900)
    (fun _ => ret tt).


(** ** The tool handlers ([WolframKnowledgeEngineMCP.init]) *)

(** The line feed of the template literals. *)
Definition LF : string := String (ascii_of_nat 10) EmptyString.

Definition textResponse (t : string) (flag : option bool) : ToolResponse :=
  mkToolResponse [mkContentItem "text" t] flag.

(** [this.props?.userId] *)
Definition props_userId (props : option Props) : option string :=
  match props with
  | Some p => userId p
  | None => None
  end.

(** The [redactPII] options both handlers pass. *)
Definition redactOptions : RedactOptions :=
  mkRedactOptions false true true true true true true true true "[REDACTED]".

(** The handler of the [getQuickAnswer] tool.  [props] is [this.props] and
    [appId] is [this.env.WOLFRAM_APPID], held by [apiClient].  The
    [console.warn] on detected categories has no effect on the result and is
    left out. *)
Definition getQuickAnswerTool (props : option Props) (appId : string)
  (query : string) (units : option Units) : M ToolResponse :=
  let TOOL_COST := 2 in
  let TOOL_NAME := "getQuickAnswer" in
  let! actionId := crypto_randomUUID in
  try_catch
    (let! userId :=
       (let userId := props_userId props in
        if negb (truthy_opt userId) then
          throw (ErrorObject "User ID not found in authentication context")
        else ret (default "" userId)) in
     let cacheKey :=
       getCacheKey TOOL_NAME
         (query +:+ match units with
                    | Some u => Units_string u
                    | None => ""
                    end) in
     let! cachedResult := checkCache cacheKey in
     if truthy_opt cachedResult then
       ret (textResponse
              ("[Cached Result]" +:+ LF +:+ LF +:+ default "" cachedResult)
              None)
     else
       let! balanceCheck := call_checkBalance userId TOOL_COST in
       if negb (sufficient balanceCheck) then
         ret (textResponse
                (formatInsufficientTokensError TOOL_NAME
                   (currentBalance balanceCheck) TOOL_COST)
                (Some true))
       else
         let! result :=
           getQuickAnswer appId query (Units_string <$> units) in
         let! sanitized :=
           call_sanitizeOutput result (mkSanitizeOptions true true true 5000) in
         let! r := call_redactPII sanitized redactOptions in
         let finalResult := redacted r in
         do! call_consumeTokensWithRetry
               (mkConsumption userId TOOL_COST "knowledge-engine" TOOL_NAME
                  (QuickInput query units) finalResult true actionId) in
         do! storeCache cacheKey finalResult in
         ret (textResponse finalResult None))
    (fun error =>
       ret (textResponse ("Error: " +:+ messageOrString error) (Some true))).

(** The handler of the [getDetailedAnalysis] tool. *)
Definition getDetailedAnalysisTool (props : option Props) (appId : string)
  (query : string) (maxchars : option Z) : M ToolResponse :=
  let TOOL_COST := 4 in
  let TOOL_NAME := "getDetailedAnalysis" in
  let! actionId := crypto_randomUUID in
  try_catch
    (let! userId :=
       (let userId := props_userId props in
        if negb (truthy_opt userId) then
          throw (ErrorObject "User ID not found in authentication context")
        else ret (default "" userId)) in
     let cacheKey :=
       getCacheKey TOOL_NAME
         (query +:+ (if truthy_num maxchars
                     then String_of_number (default 0 maxchars)
                     else "")) in
     let! cachedResult := checkCache cacheKey in
     if truthy_opt cachedResult then
       ret (textResponse
              ("[Cached Result]" +:+ LF +:+ LF +:+ default "" cachedResult)
              None)
     else
       let! balanceCheck := call_checkBalance userId TOOL_COST in
       if negb (sufficient balanceCheck) then
         ret (textResponse
                (formatInsufficientTokensError TOOL_NAME
                   (currentBalance balanceCheck) TOOL_COST)
                (Some true))
       else
         let! result := getDetailedAnalysis appId query maxchars in
         let! sanitized :=
           call_sanitizeOutput result
             (mkSanitizeOptions true true true
                (if truthy_num maxchars then default 0 maxchars else 6800)) in
         let! r := call_redactPII sanitized redactOptions in
         let finalResult := redacted r in
         do! call_consumeTokensWithRetry
               (mkConsumption userId TOOL_COST "knowledge-engine" TOOL_NAME
                  (DetailedInput query maxchars) finalResult true actionId) in
         do! storeCache cacheKey finalResult in
         ret (textResponse finalResult None))
    (fun error =>
       ret (textResponse ("Error: " +:+ messageOrString error) (Some true))).

(** ** One description for both tools

    The two handlers are the same pipeline up to the tool's constants; the
    properties below are proved once, for a [Tool] that names the tool
    together with the arguments of the call. *)

Inductive Tool : Type :=
| QuickAnswer (query : string) (units : option Units)
| DetailedAnalysis (query : string) (maxchars : option Z).

(** The handler registered for the tool, applied to the call's arguments. *)
Definition invoke (props : option Props) (appId : string) (t : Tool)
  : M ToolResponse :=
  match t with
  | QuickAnswer query units => getQuickAnswerTool props appId query units
  | DetailedAnalysis query maxchars =>
      getDetailedAnalysisTool props appId query maxchars
  end.

(** [TOOL_COST] *)
Definition toolCost (t : Tool) : Z :=
  match t with
  | QuickAnswer _ _ => 2
  | DetailedAnalysis _ _ => 4
  end.

(** [TOOL_NAME] *)
Definition toolName (t : Tool) : string :=
  match t with
  | QuickAnswer _ _ => "getQuickAnswer"
  | DetailedAnalysis _ _ => "getDetailedAnalysis"
  end.

(** The second argument the handler gives to [getCacheKey]. *)
Definition canonicalQuery (t : Tool) : string :=
  match t with
  | QuickAnswer query units =>
      query +:+ match units with
                | Some u => Units_string u
                | None => ""
                end
  | DetailedAnalysis query maxchars =>
      query +:+ (if truthy_num maxchars
                 then String_of_number (default 0 maxchars)
                 else "")
  end.

(** [cacheKey] *)
Definition toolCacheKey (t : Tool) : string :=
  getCacheKey (toolName t) (canonicalQuery t).

(** The [input] object given to the ledger. *)
Definition toolInput (t : Tool) : ToolInput :=
  match t with
  | QuickAnswer query units => QuickInput query units
  | DetailedAnalysis query maxchars => DetailedInput query maxchars
  end.

(** The options given to [sanitizeOutput]. *)
Definition toolSanitizeOptions (t : Tool) : SanitizeOptions :=
  match t with
  | QuickAnswer _ _ => mkSanitizeOptions true true true 5000
  | DetailedAnalysis _ maxchars =>
      mkSanitizeOptions true true true
        (if truthy_num maxchars then default 0 maxchars else 6800)
  end.

(** The client method the handler calls. *)
Definition toolExecute (appId : string) (t : Tool) : M string :=
  match t with
  | QuickAnswer query units =>
      getQuickAnswer appId query (Units_string <$> units)
  | DetailedAnalysis query maxchars => getDetailedAnalysis appId query maxchars
  end.

(** The URL the client method requests. *)
Definition toolURL (appId : string) (t : Tool) : URL :=
  match t with
  | QuickAnswer query units =>
      quickAnswerURL appId query (Units_string <$> units)
  | DetailedAnalysis query maxchars => detailedAnalysisURL appId query maxchars
  end.

(** The [consumeTokensWithRetry] arguments of a charge. *)
Definition toolConsumption (t : Tool) (user finalResult actionId : string)
  : Consumption :=
  mkConsumption user (toolCost t) "knowledge-engine" (toolName t)
    (toolInput t) finalResult true actionId.

(** The three responses a handler builds besides the plain result. *)
Definition cachedResponse (cachedResult : string) : ToolResponse :=
  textResponse ("[Cached Result]" +:+ LF +:+ LF +:+ cachedResult) None.

Definition insufficientResponse (t : Tool) (b : BalanceCheck) : ToolResponse :=
  textResponse
    (formatInsufficientTokensError (toolName t) (currentBalance b) (toolCost t))
    (Some true).

Definition errorResponse (error : Thrown) : ToolResponse :=
  textResponse ("Error: " +:+ messageOrString error) (Some true).

(** What [checkCache] answers on a cache namespace in state [k]. *)
Definition cacheLookup (k : K) (key : string) : option string :=
  match fst (kv_get k key) with
  | Ok (Some cached) => if truthy cached then Some cached else None
  | Ok None => None
  | Throw _ => None
  end.

(** The completion of the client method the tool calls, when run in [w]. *)
Definition clientResult (appId : string) (t : Tool) (w : World)
  : Result string :=
  fst (toolExecute appId t w).

(** ** The paths through a handler

    [Start -> CacheCheck -> CacheHit | BalanceCheck -> Insufficient |
    Execute -> Sanitize -> Redact -> Charge -> CacheStore -> Respond], with
    the [catch] branch reachable from every step that throws. *)

Inductive Path : Type :=
| NoUser
| CacheHit (cachedResult : string)
| BalanceThrew (e : Thrown)
| Insufficient (b : BalanceCheck)
| ClientThrew (e : Thrown)
| SanitizeThrew (raw : string) (e : Thrown)
| RedactThrew (raw sanitized : string) (e : Thrown)
| ChargeThrew (raw sanitized : string) (r : RedactResult) (e : Thrown)
| Completed (raw sanitized : string) (r : RedactResult).

(** The response at the end of a path. *)
Definition pathResponse (t : Tool) (p : Path) : ToolResponse :=
  match p with
  | NoUser =>
      errorResponse
        (ErrorObject "User ID not found in authentication context")
  | CacheHit cachedResult => cachedResponse cachedResult
  | BalanceThrew e => errorResponse e
  | Insufficient b => insufficientResponse t b
  | ClientThrew e => errorResponse e
  | SanitizeThrew _ e => errorResponse e
  | RedactThrew _ _ e => errorResponse e
  | ChargeThrew _ _ _ e => errorResponse e
  | Completed _ _ r => textResponse (redacted r) None
  end.

(** The calls made along a path, in order. *)
Definition pathEvents (appId : string) (t : Tool) (user actionId : string)
  (p : Path) : list Event :=
  let uuid := [EvRandomUUID actionId] in
  let lookup := uuid ++ [EvCacheGet (toolCacheKey t)] in
  let balance := lookup ++ [EvCheckBalance user (toolCost t)] in
  let execute := balance ++ [EvFetch (toolURL appId t) GET_init] in
  let sanitize raw := execute ++ [EvSanitize raw (toolSanitizeOptions t)] in
  let redact raw s := sanitize raw ++ [EvRedact s redactOptions] in
  let charge raw s r :=
    redact raw s ++ [EvConsume (toolConsumption t user (redacted r) actionId)] in
  match p with
  | NoUser => uuid
  | CacheHit _ => lookup
  | BalanceThrew _ => balance
  | Insufficient _ => balance
  | ClientThrew _ => execute
  | SanitizeThrew raw _ => sanitize raw
  | RedactThrew raw s _ => redact raw s
  | ChargeThrew raw s r _ => charge raw s r
  | Completed raw s r =>
      charge raw s r ++ [EvCachePut (toolCacheKey t) (redacted r) 900]
  end.

(** [Run props appId t w user p w']: started in [w], the handler of [t]
    takes path [p] on behalf of [user] and ends in [w'].  Each rule lists
    what the collaborators answered along the path. *)
Inductive Run (props : option Props) (appId : string) (t : Tool) (w : World)
  : string -> Path -> World -> Prop :=
| Run_NoUser :
    truthy_opt (props_userId props) = false ->
    Run props appId t w ""
      NoUser
      (mkWorld (CACHE_KV w) (TOKEN_DB w) (network w)
         (snd (randomUUID (crypto w)))
         (log w ++ pathEvents appId t "" (fst (randomUUID (crypto w))) NoUser))
| Run_CacheHit user cachedResult :
    props_userId props = Some user -> truthy user = true ->
    cacheLookup (CACHE_KV w) (toolCacheKey t) = Some cachedResult ->
    Run props appId t w user
      (CacheHit cachedResult)
      (mkWorld (snd (kv_get (CACHE_KV w) (toolCacheKey t))) (TOKEN_DB w)
         (network w) (snd (randomUUID (crypto w)))
         (log w ++ pathEvents appId t user (fst (randomUUID (crypto w)))
                     (CacheHit cachedResult)))
| Run_BalanceThrew user e d :
    props_userId props = Some user -> truthy user = true ->
    cacheLookup (CACHE_KV w) (toolCacheKey t) = None ->
    checkBalance (TOKEN_DB w) user (toolCost t) = (Throw e, d) ->
    Run props appId t w user
      (BalanceThrew e)
      (mkWorld (snd (kv_get (CACHE_KV w) (toolCacheKey t))) d
         (network w) (snd (randomUUID (crypto w)))
         (log w ++ pathEvents appId t user (fst (randomUUID (crypto w)))
                     (BalanceThrew e)))
| Run_Insufficient user b d :
    props_userId props = Some user -> truthy user = true ->
    cacheLookup (CACHE_KV w) (toolCacheKey t) = None ->
    checkBalance (TOKEN_DB w) user (toolCost t) = (Ok b, d) ->
    sufficient b = false ->
    Run props appId t w user
      (Insufficient b)
      (mkWorld (snd (kv_get (CACHE_KV w) (toolCacheKey t))) d
         (network w) (snd (randomUUID (crypto w)))
         (log w ++ pathEvents appId t user (fst (randomUUID (crypto w)))
                     (Insufficient b)))
| Run_ClientThrew user b d e :
    props_userId props = Some user -> truthy user = true ->
    cacheLookup (CACHE_KV w) (toolCacheKey t) = None ->
    checkBalance (TOKEN_DB w) user (toolCost t) = (Ok b, d) ->
    sufficient b = true ->
    clientResult appId t w = Throw e ->
    Run props appId t w user
      (ClientThrew e)
      (mkWorld (snd (kv_get (CACHE_KV w) (toolCacheKey t))) d
         (snd (fetch (network w) (toolURL appId t) GET_init))
         (snd (randomUUID (crypto w)))
         (log w ++ pathEvents appId t user (fst (randomUUID (crypto w)))
                     (ClientThrew e)))
| Run_SanitizeThrew user b d raw e :
    props_userId props = Some user -> truthy user = true ->
    cacheLookup (CACHE_KV w) (toolCacheKey t) = None ->
    checkBalance (TOKEN_DB w) user (toolCost t) = (Ok b, d) ->
    sufficient b = true ->
    clientResult appId t w = Ok raw ->
    sanitizeOutput raw (toolSanitizeOptions t) = Throw e ->
    Run props appId t w user
      (SanitizeThrew raw e)
      (mkWorld (snd (kv_get (CACHE_KV w) (toolCacheKey t))) d
         (snd (fetch (network w) (toolURL appId t) GET_init))
         (snd (randomUUID (crypto w)))
         (log w ++ pathEvents appId t user (fst (randomUUID (crypto w)))
                     (SanitizeThrew raw e)))
| Run_RedactThrew user b d raw s e :
    props_userId props = Some user -> truthy user = true ->
    cacheLookup (CACHE_KV w) (toolCacheKey t) = None ->
    checkBalance (TOKEN_DB w) user (toolCost t) = (Ok b, d) ->
    sufficient b = true ->
    clientResult appId t w = Ok raw ->
    sanitizeOutput raw (toolSanitizeOptions t) = Ok s ->
    redactPII s redactOptions = Throw e ->
    Run props appId t w user
      (RedactThrew raw s e)
      (mkWorld (snd (kv_get (CACHE_KV w) (toolCacheKey t))) d
         (snd (fetch (network w) (toolURL appId t) GET_init))
         (snd (randomUUID (crypto w)))
         (log w ++ pathEvents appId t user (fst (randomUUID (crypto w)))
                     (RedactThrew raw s e)))
| Run_ChargeThrew user b d raw s r e d' :
    props_userId props = Some user -> truthy user = true ->
    cacheLookup (CACHE_KV w) (toolCacheKey t) = None ->
    checkBalance (TOKEN_DB w) user (toolCost t) = (Ok b, d) ->
    sufficient b = true ->
    clientResult appId t w = Ok raw ->
    sanitizeOutput raw (toolSanitizeOptions t) = Ok s ->
    redactPII s redactOptions = Ok r ->
    consumeTokensWithRetry d
      (toolConsumption t user (redacted r) (fst (randomUUID (crypto w))))
      = (Throw e, d') ->
    Run props appId t w user
      (ChargeThrew raw s r e)
      (mkWorld (snd (kv_get (CACHE_KV w) (toolCacheKey t))) d'
         (snd (fetch (network w) (toolURL appId t) GET_init))
         (snd (randomUUID (crypto w)))
         (log w ++ pathEvents appId t user (fst (randomUUID (crypto w)))
                     (ChargeThrew raw s r e)))
| Run_Completed user b d raw s r d' :
    props_userId props = Some user -> truthy user = true ->
    cacheLookup (CACHE_KV w) (toolCacheKey t) = None ->
    checkBalance (TOKEN_DB w) user (toolCost t) = (Ok b, d) ->
    sufficient b = true ->
    clientResult appId t w = Ok raw ->
    sanitizeOutput raw (toolSanitizeOptions t) = Ok s ->
    redactPII s redactOptions = Ok r ->
    consumeTokensWithRetry d
      (toolConsumption t user (redacted r) (fst (randomUUID (crypto w))))
      = (Ok tt, d') ->
    Run props appId t w user
      (Completed raw s r)
      (mkWorld
         (snd (kv_put (snd (kv_get (CACHE_KV w) (toolCacheKey t)))
                 (toolCacheKey t) (redacted r) 900))
         d'
         (snd (fetch (network w) (toolURL appId t) GET_init))
         (snd (randomUUID (crypto w)))
         (log w ++ pathEvents appId t user (fst (randomUUID (crypto w)))
                     (Completed raw s r))).

End Engine.

(** ** The argument schemas of the tools

    [{ query: z.string().min(1), units: z.enum(["metric",
    "imperial"]).optional() }] and [{ query: z.string().min(1), maxchars:
    z.number().min(1000).max(10000).optional() }].  The enumeration of the
    units is carried by the type [Units]. *)
Definition quickAnswerSchema (query : string) (units : option Units) : bool :=
  (1 <=? String.length query)%nat.

Definition detailedAnalysisSchema (query : string) (maxchars : option Z)
  : bool :=
  (1 <=? String.length query)%nat &&
  match maxchars with
  | Some m => (1000 <=? m) && (m <=? 10000)
  | None => true
  end.

(** The arguments of the call pass the schema of its tool. *)
Definition toolSchema (t : Tool) : bool :=
  match t with
  | QuickAnswer query units => quickAnswerSchema query units
  | DetailedAnalysis query maxchars => detailedAnalysisSchema query maxchars
  end.

(** ** In-memory collaborators

    Stand-ins for the platform and the imported packages, used to run the
    handlers on concrete inputs. *)

Module Memory.

(** A cache namespace held in a finite map; every entry keeps the
    [expirationTtl] it was written with.  While [kv_outage] is set, every
    operation throws it. *)
Record KV : Type := mkKV {
  entries : gmap string (string * Z);
  kv_outage : option Thrown
}.

#[export] Instance KV_namespace : KVNamespace KV := {
  kv_get k key :=
    match kv_outage k with
    | Some e => (Throw e, k)
    | None => (Ok (fst <$> entries k !! key), k)
    end;
  kv_put k key value ttl :=
    match kv_outage k with
    | Some e => (Throw e, k)
    | None => (Ok tt, mkKV (<[key := (value, ttl)]> (entries k)) None)
    end
}.

(** Modelled from the spec: the token ledger of [./tokenConsumption], which
    is not among the sources.  A balance per user; [checkBalance] reports
    whether the balance covers the cost; the consume operation deducts the
    cost once per action identifier.  While [ledger_outage] is set, the
    consume operation throws it. *)
Record Ledger : Type := mkLedger {
  balances : gmap string Z;
  actions : list string;
  ledger_outage : option Thrown
}.

Definition balanceOf (d : Ledger) (user : string) : Z :=
  default 0 (balances d !! user).

#[export] Instance Ledger_ledger : TokenLedger Ledger := {
  checkBalance d user cost :=
    (Ok (mkBalanceCheck (cost <=? balanceOf d user) (balanceOf d user)), d);
  consumeTokensWithRetry d c :=
    match ledger_outage d with
    | Some e => (Throw e, d)
    | None =>
        if existsb (String.eqb (c_actionId c)) (actions d) then (Ok tt, d)
        else
          (Ok tt,
           mkLedger
             (<[c_userId c := balanceOf d (c_userId c) - c_cost c]>
                (balances d))
             (c_actionId c :: actions d) None)
    end
}.

(** A network that completes every [fetch] the same way. *)
#[export] Instance Canned_network : Network (Result Response) := {
  fetch n _ _ := (n, n)
}.

(** A UUID source that counts. *)
#[export] Instance Counter_crypto : Crypto nat := {
  randomUUID n := ("action-" +:+ String_of_number (Z.of_nat n), S n)
}.

Definition isDigit (c : ascii) : bool :=
  ((48 <=? N_of_ascii c) && (N_of_ascii c <=? 57))%N.

Definition isDash (c : ascii) : bool := (N_of_ascii c =? 45)%N.

(** [matches shape s]: [s] starts with characters of the given classes. *)
Fixpoint matches (shape : list (ascii -> bool)) (s : string) : bool :=
  match shape with
  | [] => true
  | p :: shape' =>
      match s with
      | EmptyString => false
      | String c s' => p c && matches shape' s'
      end
  end.

(** Four groups of four digits separated by dashes. *)
Definition cardShape : list (ascii -> bool) :=
  let group := [isDigit; isDigit; isDigit; isDigit] in
  group ++ [isDash] ++ group ++ [isDash] ++ group ++ [isDash] ++ group.

(** Replace every card-shaped run of [s] by the placeholder; [skip] counts
    the characters of a run still to drop. *)
Fixpoint replaceCards (placeholder : string) (skip : nat) (s : string)
  : string :=
  match s with
  | EmptyString => EmptyString
  | String c s' =>
      match skip with
      | S k => replaceCards placeholder k s'
      | O =>
          if matches cardShape s
          then placeholder +:+ replaceCards placeholder 18 s'
          else String c (replaceCards placeholder 0 s')
      end
  end.

(** Keep the first [n] characters. *)
Fixpoint take_string (n : nat) (s : string) : string :=
  match n, s with
  | S k, String c s' => String c (take_string k s')
  | _, _ => EmptyString
  end.

(** A sanitizer that truncates to [maxLength] and a redactor for card
    numbers; both throw on the text ["<fail>"], to exercise the [catch]
    branch.  The insufficient-balance message names the tool, the balance
    and the cost. *)
#[export] Instance Demo_helpers : Helpers := {
  sanitizeOutput raw opts :=
    if String.eqb raw "<fail>" then Throw (ErrorObject "sanitizer failed")
    else Ok (take_string (Z.to_nat (maxLength opts)) raw);
  redactPII s opts :=
    if String.eqb s "<redact-fail>" then Throw (OtherValue "redactor failed")
    else
      let out :=
        if redactCreditCards opts then replaceCards (placeholder opts) 0 s
        else s in
      Ok (mkRedactResult out
            (if String.eqb out s then [] else ["creditCard"]));
  formatInsufficientTokensError toolName currentBalance cost :=
    "Insufficient tokens for " +:+ toolName +:+ ": balance "
    +:+ String_of_number currentBalance +:+ ", required "
    +:+ String_of_number cost
}.

Abbreviation World := (World KV Ledger (Result Response) nat).

(** A user with ten tokens, an empty cache, and an upstream that answers
    [body] with status [code]. *)
Definition start (code : Z) (body : string) : World :=
  mkWorld (mkKV ∅ None) (mkLedger {["user-1" := 10]} [] None)
    (Ok (mkResponse code "" (Ok body))) 0%nat [].

Definition alice : option Props := Some (mkProps (Some "user-1")).

(** The same world for a user with a single token. *)
Definition poor (code : Z) (body : string) : World :=
  mkWorld (mkKV ∅ None) (mkLedger {["user-1" := 1]} [] None)
    (Ok (mkResponse code "" (Ok body))) 0%nat [].

(** The request of the specification's scenario, and the world its first
    successful call leaves. *)
Definition laToNy : Tool :=
  QuickAnswer "distance from LA to NY" (Some metric).

Definition afterFirst : World :=
  snd (invoke alice "APP" laToNy (start 200 "2,789 km")).

(** The world left by a first, successful request whose upstream answer is
    blank, so that its trimmed, sanitized, redacted result is empty. *)
Definition afterBlank : World :=
  snd (invoke alice "APP" laToNy (start 200 "   ")).

(** A request to the detailed tool. *)
Definition densest : Tool :=
  DetailedAnalysis "10 densest elemental metals" (Some 1500).

(** A world whose network is down: [fetch] throws a value that is not an
    [Error]. *)
Definition offline : World :=
  mkWorld (mkKV ∅ None) (mkLedger {["user-1" := 10]} [] None)
    (Throw (OtherValue "socket hang up")) 0%nat [].

(** A world whose ledger cannot record a charge. *)
Definition ledgerDown (code : Z) (body : string) : World :=
  mkWorld (mkKV ∅ None)
    (mkLedger {["user-1" := 10]} [] (Some (ErrorObject "D1 unavailable")))
    (Ok (mkResponse code "" (Ok body))) 0%nat [].

(** A second user, who has no balance in these worlds. *)
Definition bob : option Props := Some (mkProps (Some "user-2")).

End Memory.

(** * Properties *)

(** ** Logs *)

Lemma before_from_sound (p q : Event -> bool) (l : list Event) (seen : bool) :
  before_from seen p q l = true ->
  forall pre e post, l = pre ++ e :: post -> q e = true ->
    seen = true \/ exists e', In e' pre /\ p e' = true.
Proof.
  revert seen. induction l as [|x l IH]; intros seen Hb pre e post Hl Hq.
  - destruct pre; discriminate.
  - simpl in Hb. apply andb_prop in Hb as [Hx Hrest].
    destruct pre as [|y pre]; simpl in Hl; injection Hl as -> ->.
    + rewrite Hq in Hx. simpl in Hx. left. exact Hx.
    + destruct (IH _ Hrest pre e post eq_refl Hq) as [Hs | (e' & Hin & Hp)].
      * apply orb_prop in Hs as [Hs | Hs]; [left; exact Hs|].
        right. exists y. split; [left; reflexivity | exact Hs].
      * right. exists e'. split; [right; exact Hin | exact Hp].
Qed.

Lemma before_decide (p q : Event -> bool) (l : list Event) :
  before_from false p q l = true -> before p q l.
Proof.
  intros Hb pre e post Hl Hq.
  destruct (before_from_sound p q l false Hb pre e post Hl Hq) as [H|H];
    [discriminate | exact H].
Qed.

(** ** Trimming *)

Lemma trimStart_spec (s : string) :
  exists l, s = l +:+ trimStart s /\ allWhiteSpace l = true /\
            startsWithWhiteSpace (trimStart s) = false.
Proof.
  induction s as [|c s (l & Hs & Hl & Hst)].
  - exists "". repeat split.
  - cbn [trimStart]. destruct (isWhiteSpace c) eqn:Hc.
    + exists (String c l). split; [rewrite Hs at 1; reflexivity|].
      split; [cbn [allWhiteSpace]; rewrite Hc, Hl; reflexivity | exact Hst].
    + exists "". split; [reflexivity|]. split; [reflexivity | exact Hc].
Qed.

Lemma trimEnd_spec (s : string) :
  exists r, s = trimEnd s +:+ r /\ allWhiteSpace r = true /\
            endsWithWhiteSpace (trimEnd s) = false.
Proof.
  induction s as [|c s (r & Hs & Hr & Hend)].
  - exists "". repeat split.
  - cbn [trimEnd]. destruct (isWhiteSpace c) eqn:Hc; cbn [andb].
    + destruct (trimEnd s) as [|c' t] eqn:Ht; cbn [truthy negb].
      * exists (String c r). split; [rewrite Hs at 1; reflexivity|].
        split; [cbn [allWhiteSpace]; rewrite Hc, Hr; reflexivity|].
        reflexivity.
      * exists r. split; [rewrite Hs at 1; reflexivity|].
        split; [exact Hr | exact Hend].
    + exists r. split; [rewrite Hs at 1; reflexivity|].
      split; [exact Hr|].
      destruct (trimEnd s) as [|c' t]; [exact Hc | exact Hend].
Qed.

Lemma trimEnd_start (s : string) :
  startsWithWhiteSpace s = false -> startsWithWhiteSpace (trimEnd s) = false.
Proof.
  destruct s as [|c s]; [reflexivity|].
  cbn [startsWithWhiteSpace trimEnd]. intros Hc.
  rewrite Hc. cbn [andb startsWithWhiteSpace]. exact Hc.
Qed.

(** [trim] removes white space, and only white space, at both ends. *)
Lemma trim_spec (s : string) :
  exists l r, s = l +:+ trim s +:+ r /\
              allWhiteSpace l = true /\ allWhiteSpace r = true /\
              startsWithWhiteSpace (trim s) = false /\
              endsWithWhiteSpace (trim s) = false.
Proof.
  unfold trim.
  destruct (trimStart_spec s) as (l & Hs & Hl & Hst).
  destruct (trimEnd_spec (trimStart s)) as (r & Ht & Hr & Hend).
  exists l, r. split; [rewrite <- Ht; exact Hs|].
  repeat split; auto using trimEnd_start.
Qed.

(** ** The handlers follow the paths *)

Section Properties.

Context {K D N R : Type}.
Context `{!KVNamespace K, !TokenLedger D, !Network N, !Crypto R, !Helpers}.

Lemma checkCache_run (key : string) (w : World K D N R) :
  checkCache key w =
    (Ok (cacheLookup (CACHE_KV w) key),
     record (EvCacheGet key)
       (set_CACHE_KV (snd (kv_get (CACHE_KV w) key)) w)).
Proof.
  unfold checkCache, try_catch, bind, cacheKV_get, cacheLookup, ret.
  destruct (kv_get (CACHE_KV w) key) as [[[c|]|e] k]; simpl; try reflexivity.
  destruct (truthy c); reflexivity.
Qed.

Lemma storeCache_run (key value : string) (w : World K D N R) :
  storeCache key value w =
    (Ok tt,
     record (EvCachePut key value 900)
       (set_CACHE_KV (snd (kv_put (CACHE_KV w) key value 900)) w)).
Proof.
  unfold storeCache, try_catch, cacheKV_put, ret.
  destruct (kv_put (CACHE_KV w) key value 900) as [[[]|e] k]; reflexivity.
Qed.

Lemma toolExecute_run (appId : string) (t : Tool) (w : World K D N R) :
  toolExecute appId t w =
    (clientResult appId t w,
     record (EvFetch (toolURL appId t) GET_init)
       (set_network (snd (fetch (network w) (toolURL appId t) GET_init)) w)).
Proof.
  unfold clientResult.
  destruct t as [query units | query maxchars]; simpl;
    unfold getQuickAnswer, getDetailedAnalysis, try_catch, bind, call_fetch,
      throw, lift, ret;
    match goal with
    | |- context [fetch ?n ?u ?i] => destruct (fetch n u i) as [[resp|e] n']
    end; simpl; try reflexivity;
    repeat match goal with
    | |- context [if ?b then _ else _] => destruct b; simpl; try reflexivity
    end;
    destruct (text resp); reflexivity.
Qed.

Lemma clientResult_network (appId : string) (t : Tool) (w1 w2 : World K D N R) :
  network w1 = network w2 -> clientResult appId t w1 = clientResult appId t w2.
Proof.
  intros Hn. unfold clientResult.
  destruct t as [query units | query maxchars]; simpl;
    unfold getQuickAnswer, getDetailedAnalysis, try_catch, bind, call_fetch,
      throw, lift, ret; rewrite Hn;
    match goal with
    | |- context [fetch ?n ?u ?i] => destruct (fetch n u i) as [[resp|e] n']
    end; simpl; try reflexivity;
    repeat match goal with
    | |- context [if ?b then _ else _] => destruct b; simpl; try reflexivity
    end;
    destruct (text resp); reflexivity.
Qed.

Lemma cacheLookup_truthy (k : K) (key cached : string) :
  cacheLookup k key = Some cached -> truthy cached = true.
Proof.
  unfold cacheLookup.
  destruct (fst (kv_get k key)) as [[c|]|e]; try discriminate.
  destruct (truthy c) eqn:Hc; [intros [= <-]; exact Hc | discriminate].
Qed.

Lemma checkCache_lookup (key : string) (w : World K D N R)
  (r : option string) :
  fst (checkCache key w) = Ok r -> cacheLookup (CACHE_KV w) key = r.
Proof. rewrite checkCache_run. cbn [fst]. intros [= Hr]. exact Hr. Qed.

Lemma crypto_randomUUID_run (w : World K D N R) :
  crypto_randomUUID w =
    (Ok (fst (randomUUID (crypto w))),
     record (EvRandomUUID (fst (randomUUID (crypto w))))
       (set_crypto (snd (randomUUID (crypto w))) w)).
Proof.
  unfold crypto_randomUUID. destruct (randomUUID (crypto w)); reflexivity.
Qed.

Lemma call_checkBalance_run (user : string) (cost : Z) (w : World K D N R) :
  call_checkBalance user cost w =
    (fst (checkBalance (TOKEN_DB w) user cost),
     record (EvCheckBalance user cost)
       (set_TOKEN_DB (snd (checkBalance (TOKEN_DB w) user cost)) w)).
Proof.
  unfold call_checkBalance.
  destruct (checkBalance (TOKEN_DB w) user cost); reflexivity.
Qed.

Lemma call_consumeTokensWithRetry_run (c : Consumption) (w : World K D N R) :
  call_consumeTokensWithRetry c w =
    (fst (consumeTokensWithRetry (TOKEN_DB w) c),
     record (EvConsume c)
       (set_TOKEN_DB (snd (consumeTokensWithRetry (TOKEN_DB w) c)) w)).
Proof.
  unfold call_consumeTokensWithRetry.
  destruct (consumeTokensWithRetry (TOKEN_DB w) c); reflexivity.
Qed.

(** Both handlers are one pipeline over the tool's constants. *)
Lemma invoke_unfold (props : option Props) (appId : string) (t : Tool) :
  invoke props appId t =
    (let! actionId := crypto_randomUUID in
     try_catch
       (let! user :=
          (if negb (truthy_opt (props_userId props)) then
             throw (ErrorObject "User ID not found in authentication context")
           else ret (default "" (props_userId props))) in
        let! cachedResult := checkCache (toolCacheKey t) in
        if truthy_opt cachedResult then
          ret (cachedResponse (default "" cachedResult))
        else
          let! balanceCheck := call_checkBalance user (toolCost t) in
          if negb (sufficient balanceCheck) then
            ret (insufficientResponse t balanceCheck)
          else
            let! result := toolExecute appId t in
            let! sanitized :=
              call_sanitizeOutput result (toolSanitizeOptions t) in
            let! r := call_redactPII sanitized redactOptions in
            do! call_consumeTokensWithRetry
                  (toolConsumption t user (redacted r) actionId) in
            do! storeCache (toolCacheKey t) (redacted r) in
            ret (textResponse (redacted r) None))
       (fun error => ret (errorResponse error))).
Proof. destruct t; reflexivity. Qed.

Lemma Run_eq (props : option Props) (appId : string) (t : Tool)
  (w : World K D N R) (user : string) (p : Path) (w1 w2 : World K D N R) :
  Run props appId t w user p w1 -> w1 = w2 -> Run props appId t w user p w2.
Proof. intros Hrun <-. exact Hrun. Qed.

Lemma World_ext (w1 w2 : World K D N R) :
  CACHE_KV w1 = CACHE_KV w2 -> TOKEN_DB w1 = TOKEN_DB w2 ->
  network w1 = network w2 -> crypto w1 = crypto w2 -> log w1 = log w2 ->
  w1 = w2.
Proof. destruct w1, w2; simpl; intros; subst; reflexivity. Qed.

Ltac same_world :=
  apply World_ext;
  cbn [CACHE_KV TOKEN_DB network crypto log
       record set_CACHE_KV set_TOKEN_DB set_network set_crypto];
  [reflexivity .. | unfold pathEvents; rewrite <- ?app_assoc; reflexivity].

Ltac step :=
  cbv beta iota;
  cbn [fst snd negb truthy_opt default CACHE_KV TOKEN_DB network crypto log
       record set_CACHE_KV set_TOKEN_DB set_network set_crypto].

Ltac close_run user p rule :=
  intros [= <- <-]; exists user, p; split; [reflexivity|];
  eapply Run_eq; [eapply rule; eassumption | same_world].

Lemma invoke_run (props : option Props) (appId : string) (t : Tool)
  (w : World K D N R) :
  exists user p w',
    invoke props appId t w = (Ok (pathResponse t p), w') /\
    Run props appId t w user p w'.
Proof.
  cut (forall res w', invoke props appId t w = (res, w') ->
         exists user p, res = Ok (pathResponse t p) /\
                        Run props appId t w user p w').
  { intros Hcut. destruct (invoke props appId t w) as [res w'] eqn:Hinv.
    destruct (Hcut res w' eq_refl) as (user & p & -> & Hrun).
    exists user, p, w'. split; [reflexivity | exact Hrun]. }
  intros res w'. rewrite invoke_unfold.
  unfold bind at 1. rewrite crypto_randomUUID_run.
  unfold try_catch at 1, bind at 1.
  unfold ret, throw.
  destruct (props_userId props) as [user|] eqn:Hprops; step;
    [destruct (truthy user) eqn:Huser|]; step.
  2,3: intros [= <- <-]; exists "", NoUser; split; [reflexivity|];
       (eapply Run_eq; [apply Run_NoUser; rewrite Hprops; simpl; auto
                       | same_world]).
  unfold bind at 1. rewrite checkCache_run.
  destruct (cacheLookup _ _) as [cached|] eqn:Hcache.
  { pose proof (cacheLookup_truthy _ _ _ Hcache) as Ht.
    step. rewrite Ht. step.
    close_run user (CacheHit cached) Run_CacheHit. }
  cbn [truthy_opt].
  unfold bind at 1. rewrite call_checkBalance_run.
  destruct (checkBalance _ _ _) as [[b|e] d] eqn:Hbal; step.
  2:{ close_run user (BalanceThrew e) Run_BalanceThrew. }
  destruct (sufficient b) eqn:Hsuff; step.
  2:{ close_run user (Insufficient b) Run_Insufficient. }
  unfold bind at 1. rewrite toolExecute_run.
  match goal with
  | |- context [clientResult appId t ?w0] =>
      rewrite (clientResult_network appId t w0 w eq_refl)
  end.
  destruct (clientResult appId t w) as [raw|e] eqn:Hclient; step.
  2:{ close_run user (ClientThrew e) Run_ClientThrew. }
  unfold bind at 1, call_sanitizeOutput at 1.
  destruct (sanitizeOutput raw _) as [s|e] eqn:Hsan; step.
  2:{ close_run user (SanitizeThrew raw e) Run_SanitizeThrew. }
  unfold bind at 1, call_redactPII at 1.
  destruct (redactPII s _) as [r|e] eqn:Hred; step.
  2:{ close_run user (RedactThrew raw s e) Run_RedactThrew. }
  unfold bind at 1. rewrite call_consumeTokensWithRetry_run. step.
  destruct (consumeTokensWithRetry d _) as [[[]|e] d'] eqn:Hcons; step.
  2:{ close_run user (ChargeThrew raw s r e) Run_ChargeThrew. }
  unfold bind at 1. rewrite storeCache_run. step.
  close_run user (Completed raw s r) Run_Completed.
Qed.

(** ** Case analysis on a run *)

Ltac same_lhs :=
  repeat match goal with
  | H : props_userId ?p = Some _, H0 : truthy_opt (props_userId ?p) = false
    |- _ => rewrite H in H0; simpl in H0
  | H1 : ?x = _, H2 : ?x = _ |- _ => rewrite H1 in H2
  end.

Ltac run_cases props appId t w resp w' Hinv Hrun :=
  let user := fresh "user0" in
  let p := fresh "p" in
  destruct (invoke_run props appId t w) as (user & p & w' & Hinv & Hrun);
  inversion Hrun; subst; repeat (progress (same_lhs; simplify_eq)).

(** ** The balance gate *)

(** C1: when the cache misses and [checkBalance] reports [sufficient =
    false], the handler returns (it does not throw) the response flagged
    [isError = true] whose text is [formatInsufficientTokensError] of the
    tool's name, the current balance and the tool's cost; the external
    query client and the ledger's consume operation are not called and
    nothing is written to the cache. *)
Theorem insufficient_balance_gate (props : option Props) (appId : string)
  (t : Tool) (w : World K D N R) (user : string) (b : BalanceCheck) (d : D) :
  props_userId props = Some user -> truthy user = true ->
  fst (checkCache (toolCacheKey t) w) = Ok None ->
  checkBalance (TOKEN_DB w) user (toolCost t) = (Ok b, d) ->
  sufficient b = false ->
  exists w' evs,
    invoke props appId t w =
      (Ok (mkToolResponse
             [mkContentItem "text"
                (formatInsufficientTokensError (toolName t)
                   (currentBalance b) (toolCost t))]
             (Some true)),
       w') /\
    log w' = log w ++ evs /\
    count is_fetch evs = O /\
    count is_consume evs = O /\
    count is_cache_put evs = O /\
    network w' = network w /\
    TOKEN_DB w' = d /\
    CACHE_KV w' = snd (kv_get (CACHE_KV w) (toolCacheKey t)).
Proof.
  intros Hprops Huser Hmiss Hbal Hsuff.
  apply checkCache_lookup in Hmiss.
  run_cases props appId t w resp w' Hinv Hrun.
  eexists _, _. split; [exact Hinv|].
  split; [reflexivity|]. repeat split; reflexivity.
Qed.

(** ** The cache hit *)

(** C4: when the cache lookup returns a stored value, the handler answers
    at once with ["[Cached Result]"], a blank line and that value; it makes
    no balance check, no external call, no charge and no cache write, and
    the token database is left as it was. *)
Theorem cache_hit_short_circuit (props : option Props) (appId : string)
  (t : Tool) (w : World K D N R) (user cachedResult : string) :
  props_userId props = Some user -> truthy user = true ->
  fst (checkCache (toolCacheKey t) w) = Ok (Some cachedResult) ->
  exists w' evs,
    invoke props appId t w =
      (Ok (mkToolResponse
             [mkContentItem "text"
                ("[Cached Result]" +:+ LF +:+ LF +:+ cachedResult)]
             None),
       w') /\
    log w' = log w ++ evs /\
    evs = [EvRandomUUID (fst (randomUUID (crypto w)));
           EvCacheGet (toolCacheKey t)] /\
    count is_check_balance evs = O /\
    count is_fetch evs = O /\
    count is_consume evs = O /\
    count is_cache_put evs = O /\
    TOKEN_DB w' = TOKEN_DB w /\
    network w' = network w.
Proof.
  intros Hprops Huser Hhit.
  apply checkCache_lookup in Hhit.
  run_cases props appId t w resp w' Hinv Hrun.
  eexists _, _. split; [exact Hinv|].
  split; [reflexivity|]. repeat split; reflexivity.
Qed.

(** Membership in the events of a path. *)
Ltac in_events Hin :=
  unfold pathEvents in Hin; cbn [In app] in Hin;
  repeat match type of Hin with
  | _ \/ _ => destruct Hin as [Hin | Hin]; [try discriminate Hin |]
  end;
  try contradiction; simplify_eq.

(** ** No raw text leaves the handler *)

(** C2: in every invocation, a text given to the ledger's consume operation
    as [output] or written to the cache is [redactPII(sanitizeOutput(raw))]
    for the text [raw] the client returned, so raw upstream text is never
    written to the cache.  In a successful invocation on a cache miss the
    redactor is called with the placeholder ["[REDACTED]"], the consume
    operation is called once, the cache is written once, and the [output]
    argument, the cached value and the text of the response are that same
    redacted text; hence a pattern that is absent from the redactor's
    result is absent from all three. *)
Theorem sanitized_output_everywhere (props : option Props) (appId : string)
  (t : Tool) (w : World K D N R) :
  exists resp w' evs,
    invoke props appId t w = (Ok resp, w') /\
    log w' = log w ++ evs /\
    (forall c, In (EvConsume c) evs ->
       exists raw s r,
         clientResult appId t w = Ok raw /\
         sanitizeOutput raw (toolSanitizeOptions t) = Ok s /\
         redactPII s redactOptions = Ok r /\
         c_output c = redacted r) /\
    (forall key value ttl, In (EvCachePut key value ttl) evs ->
       exists raw s r,
         clientResult appId t w = Ok raw /\
         sanitizeOutput raw (toolSanitizeOptions t) = Ok s /\
         redactPII s redactOptions = Ok r /\
         value = redacted r) /\
    (fst (checkCache (toolCacheKey t) w) = Ok None ->
     isError resp = None ->
     exists raw s r,
       clientResult appId t w = Ok raw /\
       sanitizeOutput raw (toolSanitizeOptions t) = Ok s /\
       redactPII s redactOptions = Ok r /\
       In (EvRedact s redactOptions) evs /\
       placeholder redactOptions = "[REDACTED]" /\
       count is_consume evs = 1%nat /\
       count is_cache_put evs = 1%nat /\
       (forall c, In (EvConsume c) evs -> c_output c = redacted r) /\
       (forall key value ttl, In (EvCachePut key value ttl) evs ->
          value = redacted r) /\
       resp = mkToolResponse [mkContentItem "text" (redacted r)] None /\
       (forall pattern, includes (redacted r) pattern = false ->
          (forall c, In (EvConsume c) evs ->
             includes (c_output c) pattern = false) /\
          (forall key value ttl, In (EvCachePut key value ttl) evs ->
             includes value pattern = false) /\
          (forall item, In item (content resp) ->
             includes (c_text item) pattern = false))).
Proof.
  run_cases props appId t w resp w' Hinv Hrun;
    (eexists _, _, _; split; [exact Hinv|]; split; [reflexivity|]);
    (split; [intros c Hin; in_events Hin; eauto 8|]);
    (split; [intros key value ttl Hin; in_events Hin; eauto 8|]);
    intros Hmiss Herr; try discriminate Herr;
    apply checkCache_lookup in Hmiss;
    try (rewrite Hmiss in *; discriminate).
  exists raw, s, r. repeat (split; [first [assumption | reflexivity]|]).
  split; [unfold pathEvents; cbn [In app]; auto 12|].
  repeat (split; [reflexivity|]).
  assert (Hc : forall c,
    In (EvConsume c)
       (pathEvents appId t user0 (fst (randomUUID (crypto w)))
          (Completed raw s r)) -> c_output c = redacted r).
  { intros c Hin. in_events Hin. reflexivity. }
  assert (Hp : forall key value ttl,
    In (EvCachePut key value ttl)
       (pathEvents appId t user0 (fst (randomUUID (crypto w)))
          (Completed raw s r)) -> value = redacted r).
  { intros key value ttl Hin. in_events Hin. reflexivity. }
  split; [exact Hc|]. split; [exact Hp|]. split; [reflexivity|].
  intros pattern Hfree. split; [|split].
  - intros c Hin. rewrite (Hc c Hin). exact Hfree.
  - intros key value ttl Hin. rewrite (Hp key value ttl Hin). exact Hfree.
  - intros item [<- | []]. exact Hfree.
Qed.

(** ** The order of the steps *)

(** C3: in every invocation the balance check comes before the external
    call, and an invocation whose balance check does not report a
    sufficient balance makes no external call; the charge comes after
    sanitization and redaction and receives the redacted result of the
    sanitized text; the cache write comes after the charge, and only after
    a charge that returned normally. *)
Theorem pipeline_order (props : option Props) (appId : string) (t : Tool)
  (w : World K D N R) :
  exists resp w' evs,
    invoke props appId t w = (Ok resp, w') /\
    log w' = log w ++ evs /\
    before is_check_balance is_fetch evs /\
    (forall user, props_userId props = Some user ->
       (forall b, fst (checkBalance (TOKEN_DB w) user (toolCost t)) = Ok b ->
          sufficient b = false) ->
       count is_fetch evs = O) /\
    before is_sanitize is_consume evs /\
    before is_redact is_consume evs /\
    (forall c, In (EvConsume c) evs ->
       exists raw s r,
         In (EvSanitize raw (toolSanitizeOptions t)) evs /\
         sanitizeOutput raw (toolSanitizeOptions t) = Ok s /\
         In (EvRedact s redactOptions) evs /\
         redactPII s redactOptions = Ok r /\
         c_output c = redacted r) /\
    before is_consume is_cache_put evs /\
    (forall key value ttl, In (EvCachePut key value ttl) evs ->
       exists c d, In (EvConsume c) evs /\
                   consumeTokensWithRetry d c = (Ok tt, TOKEN_DB w')).
Proof.
  run_cases props appId t w resp w' Hinv Hrun;
    (eexists _, _, _; split; [exact Hinv|]; split; [reflexivity|]);
    (split; [apply before_decide; reflexivity|]);
    (split; [intros u Hu Hb; try reflexivity; simplify_eq;
             match goal with
             | Hbal : checkBalance _ _ _ = (Ok ?b, _) |- _ =>
                 rewrite Hbal in Hb; specialize (Hb b eq_refl); congruence
             end|]);
    (split; [apply before_decide; reflexivity|]);
    (split; [apply before_decide; reflexivity|]);
    (split; [intros c Hin; in_events Hin;
             exists raw, s, r; unfold pathEvents; cbn [In app];
             repeat split; auto 12|]);
    (split; [apply before_decide; reflexivity|]);
    intros key value ttl Hin; in_events Hin.
  eexists _, _. split; [|eassumption].
  unfold pathEvents; cbn [In app]. auto 12.
Qed.

(** ** The action identifier and the charge *)

(** C5: every invocation draws exactly one action identifier, as its first
    step (so before the balance check); the consume operation is called at
    most once, and exactly once when the invocation reaches the charge step
    (redaction returned normally); that call carries the user id, the
    tool's cost (2 for [getQuickAnswer], 4 for [getDetailedAnalysis]), the
    server name, the tool's name, the input arguments, the redacted result
    of the sanitized text, [success = true] and that identifier. *)
Theorem one_action_id_one_charge (props : option Props) (appId : string)
  (t : Tool) (w : World K D N R) :
  exists resp w' actionId rest,
    invoke props appId t w = (Ok resp, w') /\
    log w' = log w ++ EvRandomUUID actionId :: rest /\
    actionId = fst (randomUUID (crypto w)) /\
    count is_random_uuid rest = O /\
    (count is_consume rest <= 1)%nat /\
    (forall s r, In (EvRedact s redactOptions) rest ->
       redactPII s redactOptions = Ok r -> count is_consume rest = 1%nat) /\
    (forall c, In (EvConsume c) rest ->
       exists user raw s r,
         props_userId props = Some user /\
         clientResult appId t w = Ok raw /\
         sanitizeOutput raw (toolSanitizeOptions t) = Ok s /\
         redactPII s redactOptions = Ok r /\
         c = mkConsumption user (toolCost t) "knowledge-engine" (toolName t)
               (toolInput t) (redacted r) true actionId) /\
    (forall query units, toolCost (QuickAnswer query units) = 2) /\
    (forall query maxchars, toolCost (DetailedAnalysis query maxchars) = 4).
Proof.
  run_cases props appId t w resp w' Hinv Hrun;
    (eexists _, _, _, _; split; [exact Hinv|]; split; [reflexivity|]);
    (split; [reflexivity|]); (split; [reflexivity|]);
    (split; [cbn; lia|]);
    (split; [intros s0 r0 Hin Hred; in_events Hin;
             first [reflexivity | congruence]|]);
    (split; [intros c Hin; in_events Hin; eauto 10|]);
    split; reflexivity.
Qed.

(** ** The invocation boundary *)

(** C6: a handler never throws: every invocation returns a response.  When
    a step throws (the user id is missing; the balance check, the client
    method, [sanitizeOutput], [redactPII] or the consume operation throws),
    the response is flagged [isError = true] and its text is ["Error: "]
    followed by the message of what was thrown.  The cache helpers
    themselves return normally in every world. *)
Theorem no_exception_escapes (props : option Props) (appId : string)
  (t : Tool) (w : World K D N R) :
  exists resp w',
    invoke props appId t w = (Ok resp, w') /\
    (forall e, errorResponse e =
       mkToolResponse
         [mkContentItem "text" ("Error: " +:+ messageOrString e)]
         (Some true)) /\
    (truthy_opt (props_userId props) = false ->
     resp = errorResponse
              (ErrorObject "User ID not found in authentication context")) /\
    (forall key (w0 : World K D N R), exists r w1,
       checkCache key w0 = (Ok r, w1)) /\
    (forall key value (w0 : World K D N R), exists w1,
       storeCache key value w0 = (Ok tt, w1)) /\
    (forall user, props_userId props = Some user -> truthy user = true ->
     fst (checkCache (toolCacheKey t) w) = Ok None ->
     (forall e d, checkBalance (TOKEN_DB w) user (toolCost t) = (Throw e, d) ->
        resp = errorResponse e) /\
     (forall b d, checkBalance (TOKEN_DB w) user (toolCost t) = (Ok b, d) ->
      sufficient b = true ->
      (forall e, clientResult appId t w = Throw e -> resp = errorResponse e) /\
      (forall raw, clientResult appId t w = Ok raw ->
       (forall e, sanitizeOutput raw (toolSanitizeOptions t) = Throw e ->
          resp = errorResponse e) /\
       (forall s, sanitizeOutput raw (toolSanitizeOptions t) = Ok s ->
        (forall e, redactPII s redactOptions = Throw e ->
           resp = errorResponse e) /\
        (forall r e d',
           redactPII s redactOptions = Ok r ->
           consumeTokensWithRetry d
             (toolConsumption t user (redacted r)
                (fst (randomUUID (crypto w)))) = (Throw e, d') ->
           resp = errorResponse e))))).
Proof.
  destruct (invoke_run props appId t w) as (user0 & p & w' & Hinv & Hrun).
  exists (pathResponse t p), w'. split; [exact Hinv|].
  split; [reflexivity|].
  split.
  { intros Hno. inversion Hrun; subst; try reflexivity;
      match goal with
      | Hp : props_userId props = Some _ |- _ =>
          rewrite Hp in Hno; simpl in Hno; congruence
      end. }
  split.
  { intros key w0. rewrite checkCache_run. eauto. }
  split.
  { intros key value w0. rewrite storeCache_run. eauto. }
  intros user Hprops Huser Hmiss. apply checkCache_lookup in Hmiss.
  split.
  { intros e d Hbal.
    inversion Hrun; subst; repeat (progress (same_lhs; simplify_eq)).
    reflexivity. }
  intros b d Hbal Hsuff. split.
  { intros e Hcl.
    inversion Hrun; subst; repeat (progress (same_lhs; simplify_eq)).
    reflexivity. }
  intros raw Hcl. split.
  { intros e Hsan.
    inversion Hrun; subst; repeat (progress (same_lhs; simplify_eq)).
    reflexivity. }
  intros s Hsan. split.
  { intros e Hred.
    inversion Hrun; subst; repeat (progress (same_lhs; simplify_eq)).
    reflexivity. }
  intros r e d' Hred Hcons.
  inversion Hrun; subst; repeat (progress (same_lhs; simplify_eq)).
  reflexivity.
Qed.

(** ** The operational cache *)

(** C7 (amended): the cache helpers never throw.  [checkCache] returns the
    stored value when one is present and not empty, and [null] on a miss
    and on any error of the store; [storeCache] makes one [put] with
    [expirationTtl = 900] and returns normally whatever the store does, so
    an invocation that reaches the cache write returns its result whether
    or not the write fails. *)
Theorem cache_best_effort (key value : string) (w : World K D N R) :
  (exists r w', checkCache key w = (Ok r, w') /\
                log w' = log w ++ [EvCacheGet key]) /\
  (forall v k, kv_get (CACHE_KV w) key = (Ok (Some v), k) ->
     truthy v = true -> fst (checkCache key w) = Ok (Some v)) /\
  (forall k, kv_get (CACHE_KV w) key = (Ok None, k) ->
     fst (checkCache key w) = Ok None) /\
  (forall e k, kv_get (CACHE_KV w) key = (Throw e, k) ->
     fst (checkCache key w) = Ok None) /\
  (exists w', storeCache key value w = (Ok tt, w') /\
              log w' = log w ++ [EvCachePut key value 900] /\
              CACHE_KV w' = snd (kv_put (CACHE_KV w) key value 900)) /\
  (forall props appId t user b d raw s r d',
     props_userId props = Some user -> truthy user = true ->
     fst (checkCache (toolCacheKey t) w) = Ok None ->
     checkBalance (TOKEN_DB w) user (toolCost t) = (Ok b, d) ->
     sufficient b = true ->
     clientResult appId t w = Ok raw ->
     sanitizeOutput raw (toolSanitizeOptions t) = Ok s ->
     redactPII s redactOptions = Ok r ->
     consumeTokensWithRetry d
       (toolConsumption t user (redacted r) (fst (randomUUID (crypto w))))
       = (Ok tt, d') ->
     fst (invoke props appId t w) =
       Ok (mkToolResponse [mkContentItem "text" (redacted r)] None)).
Proof.
  split.
  { rewrite checkCache_run. eexists _, _. split; reflexivity. }
  split.
  { intros v k Hget Hv. rewrite checkCache_run. unfold cacheLookup.
    rewrite Hget. simpl. rewrite Hv. reflexivity. }
  split.
  { intros k Hget. rewrite checkCache_run. unfold cacheLookup.
    rewrite Hget. reflexivity. }
  split.
  { intros e k Hget. rewrite checkCache_run. unfold cacheLookup.
    rewrite Hget. reflexivity. }
  split.
  { rewrite storeCache_run. eexists. repeat split; reflexivity. }
  intros props appId t user b d raw s r d'
    Hprops Huser Hmiss Hbal Hsuff Hcl Hsan Hred Hcons.
  apply checkCache_lookup in Hmiss.
  run_cases props appId t w resp w' Hinv Hrun.
  rewrite Hinv. reflexivity.
Qed.

(** ** The status codes of the Short Answers client *)

(** C8: [getQuickAnswer] turns status 501 into the could-not-interpret
    error, 400 into the invalid-query-format error, 403 into the invalid
    AppID error and any other status outside 200-299 into an API error that
    carries the status and its text; the four messages differ from one
    another; on a status in 200-299 it returns the body trimmed, that
    is, without the white space at its two ends. *)
Theorem quick_answer_status_mapping (appId query : string)
  (units : option string) (w : World K D N R) (response : Response) (n : N) :
  fetch (network w) (quickAnswerURL appId query units) GET_init
    = (Ok response, n) ->
  let uninterpretable :=
    "Failed to get quick answer: WolframAlpha could not interpret the query. Please rephrase or check spelling." in
  let invalidFormat :=
    "Failed to get quick answer: Invalid query format. Please check your input." in
  let invalidCredentials :=
    "Failed to get quick answer: Invalid WolframAlpha AppID. Please check configuration." in
  let upstream code reason :=
    "Failed to get quick answer: WolframAlpha API error: "
    +:+ String_of_number code +:+ " " +:+ reason in
  (status response = 501 ->
     fst (getQuickAnswer appId query units w)
       = Throw (ErrorObject uninterpretable)) /\
  (status response = 400 ->
     fst (getQuickAnswer appId query units w)
       = Throw (ErrorObject invalidFormat)) /\
  (status response = 403 ->
     fst (getQuickAnswer appId query units w)
       = Throw (ErrorObject invalidCredentials)) /\
  (status response <> 501 -> status response <> 400 ->
   status response <> 403 -> ok response = false ->
     fst (getQuickAnswer appId query units w)
       = Throw (ErrorObject
                  (upstream (status response) (statusText response)))) /\
  (forall body, ok response = true -> text response = Ok body ->
     fst (getQuickAnswer appId query units w) = Ok (trim body) /\
     exists l r, body = l +:+ trim body +:+ r /\
                 allWhiteSpace l = true /\ allWhiteSpace r = true /\
                 startsWithWhiteSpace (trim body) = false /\
                 endsWithWhiteSpace (trim body) = false) /\
  uninterpretable <> invalidFormat /\
  uninterpretable <> invalidCredentials /\
  invalidFormat <> invalidCredentials /\
  (forall code reason,
     upstream code reason <> uninterpretable /\
     upstream code reason <> invalidFormat /\
     upstream code reason <> invalidCredentials).
Proof.
  intros Hfetch uninterpretable invalidFormat invalidCredentials upstream.
  unfold getQuickAnswer, try_catch, bind, call_fetch, throw, lift, ret.
  rewrite Hfetch. cbv beta iota.
  split; [intros ->; reflexivity|].
  split; [intros ->; reflexivity|].
  split; [intros ->; reflexivity|].
  split.
  { intros H501 H400 H403 Hok.
    apply Z.eqb_neq in H501, H400, H403.
    rewrite H501, H400, H403, Hok. reflexivity. }
  split.
  { intros body Hok Hbody. unfold ok in Hok.
    apply andb_prop in Hok as [Hlo Hhi].
    apply Z.leb_le in Hlo, Hhi.
    assert (H501 : (status response =? 501) = false) by (apply Z.eqb_neq; lia).
    assert (H400 : (status response =? 400) = false) by (apply Z.eqb_neq; lia).
    assert (H403 : (status response =? 403) = false) by (apply Z.eqb_neq; lia).
    assert (Hok : ok response = true).
    { unfold ok. apply andb_true_intro. split; apply Z.leb_le; lia. }
    rewrite H501, H400, H403, Hok, Hbody.
    split; [reflexivity | apply trim_spec]. }
  repeat split; try discriminate; intros Heq; discriminate Heq.
Qed.

(** ** The cache key *)

Lemma append_inj_r (p a b : string) : p +:+ a = p +:+ b -> a = b.
Proof.
  induction p as [|c p IH]; simpl; [auto|]. intros [= Heq]. auto.
Qed.

Lemma includes_colon_cons (c : ascii) (s : string) :
  includes (String c s) ":" = false ->
  c <> ":"%char /\ includes s ":" = false.
Proof.
  simpl. intros Hinc. apply orb_false_elim in Hinc as [Hp Hrest].
  split; [|exact Hrest].
  intros ->. simpl in Hp. destruct s; discriminate.
Qed.

Lemma colon_split_inj (t1 t2 q1 q2 : string) :
  includes t1 ":" = false -> includes t2 ":" = false ->
  t1 +:+ ":" +:+ q1 = t2 +:+ ":" +:+ q2 -> t1 = t2 /\ q1 = q2.
Proof.
  revert t2. induction t1 as [|c t1 IH]; intros [|c2 t2] H1 H2 Heq.
  - injection Heq as Heq. split; [reflexivity | exact Heq].
  - apply includes_colon_cons in H2 as [Hc _].
    injection Heq as Hc' _. congruence.
  - apply includes_colon_cons in H1 as [Hc _].
    injection Heq as Hc' _. congruence.
  - apply includes_colon_cons in H1 as [_ H1].
    apply includes_colon_cons in H2 as [_ H2].
    injection Heq as Hc Heq. subst c2.
    destruct (IH t2 H1 H2 Heq) as [-> ->]. auto.
Qed.

(** C9 (amended): the cache key is ["wolfram:"], the tool name, [":"] and
    the canonical query; it is a function of the two, injective in the
    query for a given tool name and injective in the pair for tool names
    without [":"], such as the two registered tools; the canonical query of
    [getQuickAnswer] is the query directly followed by the units, so the
    key of query ["distance from LA to NY"] with units ["metric"] is
    ["wolfram:getQuickAnswer:distance from LA to NYmetric"]. *)
Theorem cache_key_shape :
  (forall toolName query,
     getCacheKey toolName query = "wolfram:" +:+ toolName +:+ ":" +:+ query) /\
  (forall toolName q1 q2,
     getCacheKey toolName q1 = getCacheKey toolName q2 -> q1 = q2) /\
  (forall n1 n2 q1 q2,
     includes n1 ":" = false -> includes n2 ":" = false ->
     getCacheKey n1 q1 = getCacheKey n2 q2 -> n1 = n2 /\ q1 = q2) /\
  (forall t1 t2,
     toolCacheKey t1 = toolCacheKey t2 ->
     toolName t1 = toolName t2 /\ canonicalQuery t1 = canonicalQuery t2) /\
  (forall query units,
     canonicalQuery (QuickAnswer query (Some units))
       = query +:+ Units_string units) /\
  toolCacheKey (QuickAnswer "distance from LA to NY" (Some metric))
    = "wolfram:getQuickAnswer:distance from LA to NYmetric".
Proof.
  split; [reflexivity|].
  split.
  { intros toolName q1 q2 Heq. unfold getCacheKey in Heq.
    apply (append_inj_r "wolfram:") in Heq.
    apply (append_inj_r toolName) in Heq.
    apply (append_inj_r ":") in Heq. exact Heq. }
  split.
  { intros n1 n2 q1 q2 H1 H2 Heq. unfold getCacheKey in Heq.
    apply (append_inj_r "wolfram:") in Heq.
    apply colon_split_inj; assumption. }
  split.
  { intros t1 t2 Heq. unfold toolCacheKey, getCacheKey in Heq.
    apply (append_inj_r "wolfram:") in Heq.
    apply colon_split_inj; [destruct t1; reflexivity
                           | destruct t2; reflexivity | exact Heq]. }
  split; reflexivity.
Qed.

(** ** The empty result *)

(** C10: [checkCache] answers [null] when the stored value is the empty
    string.  So when an invocation succeeds with the empty string as its
    result and the cache gives back what was written, the same request made
    next is not a cache hit: it checks the balance again and, with a
    sufficient balance, calls the external client again and, when the
    charge step is reached, charges again. *)
Theorem empty_result_is_never_a_hit (props : option Props) (appId : string)
  (t : Tool) (w : World K D N R) (user : string) :
  (forall v k' key, fst (kv_put k' key v 900) = Ok tt ->
     fst (kv_get (snd (kv_put k' key v 900)) key) = Ok (Some v)) ->
  props_userId props = Some user -> truthy user = true ->
  fst (invoke props appId t w)
    = Ok (mkToolResponse [mkContentItem "text" ""] None) ->
  fst (kv_put (snd (kv_get (CACHE_KV w) (toolCacheKey t)))
         (toolCacheKey t) "" 900) = Ok tt ->
  let w1 := snd (invoke props appId t w) in
  fst (checkCache (toolCacheKey t) w1) = Ok None /\
  exists resp2 w2 evs2,
    invoke props appId t w1 = (Ok resp2, w2) /\
    log w2 = log w1 ++ evs2 /\
    count is_check_balance evs2 = 1%nat /\
    (forall b d, checkBalance (TOKEN_DB w1) user (toolCost t) = (Ok b, d) ->
       sufficient b = true ->
       count is_fetch evs2 = 1%nat /\
       (forall raw s r,
          clientResult appId t w1 = Ok raw ->
          sanitizeOutput raw (toolSanitizeOptions t) = Ok s ->
          redactPII s redactOptions = Ok r ->
          count is_consume evs2 = 1%nat)).
Proof.
  intros Hlaw Hprops Huser Hfirst Hput w1.
  assert (Hstored :
    fst (kv_get (CACHE_KV w1) (toolCacheKey t)) = Ok (Some "")).
  { subst w1. revert Hfirst.
    destruct (invoke_run props appId t w) as (u & p & w' & Hinv & Hrun).
    rewrite Hinv. simpl. intros Hresp.
    inversion Hrun; subst; try discriminate Hresp.
    injection Hresp as Hred. simpl. rewrite Hred in *.
    apply Hlaw. exact Hput. }
  assert (Hmiss : cacheLookup (CACHE_KV w1) (toolCacheKey t) = None).
  { unfold cacheLookup. rewrite Hstored. reflexivity. }
  split.
  { rewrite checkCache_run. simpl. rewrite Hmiss. reflexivity. }
  clearbody w1.
  run_cases props appId t w1 resp2 w2 Hinv Hrun;
    (eexists _, _, _; split; [exact Hinv|]; split; [reflexivity|]);
    (split; [reflexivity|]);
    intros b' d'' Hbal Hsuff;
    repeat (progress (same_lhs; simplify_eq));
    (split; [reflexivity|]);
    intros raw' s' r' Hcl Hsan Hred;
    repeat (progress (same_lhs; simplify_eq)); reflexivity.
Qed.

(** * Further properties of the client and the handlers *)

(** ** The client methods *)

(** X1: [getDetailedAnalysis] turns status 501 into the could-not-interpret
    error, which carries the response body as suggestions when the body is
    not empty and asks to rephrase when it is; when the body of a 501
    cannot be read, that failure is what is reported.  400, 403 and the
    other statuses outside 200-299 are mapped as for the short answers, and
    a status in 200-299 gives the trimmed body. *)
Theorem detailed_analysis_status_mapping (appId query : string)
  (maxchars : option Z) (w : World K D N R) (response : Response) (n : N) :
  fetch (network w) (detailedAnalysisURL appId query maxchars) GET_init
    = (Ok response, n) ->
  (forall body, status response = 501 -> text response = Ok body ->
     truthy body = true ->
     fst (getDetailedAnalysis appId query maxchars w)
       = Throw (ErrorObject
           ("Failed to get detailed analysis: WolframAlpha could not interpret the query. Suggestions: "
            +:+ body))) /\
  (status response = 501 -> text response = Ok "" ->
     fst (getDetailedAnalysis appId query maxchars w)
       = Throw (ErrorObject
           "Failed to get detailed analysis: WolframAlpha could not interpret the query. Please rephrase.")) /\
  (forall e, status response = 501 -> text response = Throw e ->
     fst (getDetailedAnalysis appId query maxchars w)
       = Throw (ErrorObject
           ("Failed to get detailed analysis: " +:+ messageOrUnknown e))) /\
  (status response = 400 ->
     fst (getDetailedAnalysis appId query maxchars w)
       = Throw (ErrorObject
           "Failed to get detailed analysis: Invalid query format. Please check your input.")) /\
  (status response = 403 ->
     fst (getDetailedAnalysis appId query maxchars w)
       = Throw (ErrorObject
           "Failed to get detailed analysis: Invalid WolframAlpha AppID. Please check configuration.")) /\
  (status response <> 501 -> status response <> 400 ->
   status response <> 403 -> ok response = false ->
     fst (getDetailedAnalysis appId query maxchars w)
       = Throw (ErrorObject
           ("Failed to get detailed analysis: WolframAlpha API error: "
            +:+ String_of_number (status response)
            +:+ " " +:+ statusText response))) /\
  (forall body, ok response = true -> text response = Ok body ->
     fst (getDetailedAnalysis appId query maxchars w) = Ok (trim body)).
Proof.
  intros Hfetch.
  unfold getDetailedAnalysis, try_catch, bind, call_fetch, throw, lift, ret.
  rewrite Hfetch. cbv beta iota.
  split.
  { intros body -> Hbody Ht. cbn [Z.eqb Pos.eqb]. rewrite Hbody.
    cbv beta iota. rewrite Ht. reflexivity. }
  split.
  { intros -> Hbody. cbn [Z.eqb Pos.eqb]. rewrite Hbody. reflexivity. }
  split.
  { intros e -> Hbody. cbn [Z.eqb Pos.eqb]. rewrite Hbody. reflexivity. }
  split; [intros ->; reflexivity|].
  split; [intros ->; reflexivity|].
  split.
  { intros H501 H400 H403 Hok.
    apply Z.eqb_neq in H501, H400, H403.
    rewrite H501, H400, H403, Hok. reflexivity. }
  intros body Hok Hbody. pose proof Hok as Hrange. unfold ok in Hrange.
  apply andb_prop in Hrange as [Hlo Hhi].
  apply Z.leb_le in Hlo, Hhi.
  assert (H501 : (status response =? 501) = false) by (apply Z.eqb_neq; lia).
  assert (H400 : (status response =? 400) = false) by (apply Z.eqb_neq; lia).
  assert (H403 : (status response =? 403) = false) by (apply Z.eqb_neq; lia).
  rewrite H501, H400, H403, Hok, Hbody. reflexivity.
Qed.

(** X2: whatever goes wrong inside a client method, it throws an [Error]
    whose message starts with the method's own prefix; the message of the
    original failure is kept when that was an [Error] and replaced by
    ["Unknown error"] otherwise.  In particular a [fetch] that throws is
    reported this way. *)
Theorem client_failures_are_prefixed (appId query : string)
  (units : option string) (maxchars : option Z) (w : World K D N R) :
  (forall e, fst (getQuickAnswer appId query units w) = Throw e ->
     exists m, e = ErrorObject ("Failed to get quick answer: " +:+ m)) /\
  (forall e, fst (getDetailedAnalysis appId query maxchars w) = Throw e ->
     exists m, e = ErrorObject ("Failed to get detailed analysis: " +:+ m)) /\
  (forall e n,
     fetch (network w) (quickAnswerURL appId query units) GET_init
       = (Throw e, n) ->
     fst (getQuickAnswer appId query units w)
       = Throw (ErrorObject
                  ("Failed to get quick answer: " +:+ messageOrUnknown e))) /\
  (forall e n,
     fetch (network w) (detailedAnalysisURL appId query maxchars) GET_init
       = (Throw e, n) ->
     fst (getDetailedAnalysis appId query maxchars w)
       = Throw (ErrorObject
                  ("Failed to get detailed analysis: "
                   +:+ messageOrUnknown e))) /\
  (forall shown, messageOrUnknown (OtherValue shown) = "Unknown error") /\
  (forall message, messageOrUnknown (ErrorObject message) = message).
Proof.
  split.
  { unfold getQuickAnswer, try_catch, bind, call_fetch, throw, lift, ret.
    destruct (fetch _ _ _) as [[response|e0] n]; cbv beta iota;
      [|intros e [= <-]; eauto].
    repeat match goal with
    | |- context [if ?b then _ else _] =>
        destruct b; cbv beta iota; [intros e [= <-]; eauto|]
    end.
    destruct (text response) as [body|e1]; cbv beta iota;
      intros e [= <-]; eauto. }
  split.
  { unfold getDetailedAnalysis, try_catch, bind, call_fetch, throw, lift, ret.
    destruct (fetch _ _ _) as [[response|e0] n]; cbv beta iota;
      [|intros e [= <-]; eauto].
    destruct (status response =? 501).
    { destruct (text response) as [body|e1]; cbv beta iota;
      intros e [= <-]; eauto. }
    repeat match goal with
    | |- context [if ?b then _ else _] =>
        destruct b; cbv beta iota; [intros e [= <-]; eauto|]
    end.
    destruct (text response) as [body|e1]; cbv beta iota;
      intros e [= <-]; eauto. }
  split.
  { intros e n Hfetch.
    unfold getQuickAnswer, try_catch, bind, call_fetch, throw.
    rewrite Hfetch. reflexivity. }
  split.
  { intros e n Hfetch.
    unfold getDetailedAnalysis, try_catch, bind, call_fetch, throw.
    rewrite Hfetch. reflexivity. }
  split; reflexivity.
Qed.

(** X3: a client method makes exactly one request and no retry: one [GET]
    with the [User-Agent] header to its endpoint, with the application id
    and the query as parameters; the units parameter is sent exactly when
    units are given and not empty.  The method touches neither the cache
    nor the token database. *)
Theorem client_single_request (appId query : string) (units : option string)
  (maxchars : option Z) (w : World K D N R) :
  (exists r w',
     getQuickAnswer appId query units w = (r, w') /\
     log w' = log w ++ [EvFetch (quickAnswerURL appId query units) GET_init] /\
     CACHE_KV w' = CACHE_KV w /\ TOKEN_DB w' = TOKEN_DB w /\
     crypto w' = crypto w) /\
  (exists r w',
     getDetailedAnalysis appId query maxchars w = (r, w') /\
     log w' = log w
              ++ [EvFetch (detailedAnalysisURL appId query maxchars) GET_init] /\
     CACHE_KV w' = CACHE_KV w /\ TOKEN_DB w' = TOKEN_DB w /\
     crypto w' = crypto w) /\
  method GET_init = "GET" /\
  headers GET_init = [("User-Agent", "Cloudflare-Workers/WolframMCP")] /\
  href (quickAnswerURL appId query units)
    = "http://api.wolframalpha.com/v1/result" /\
  href (detailedAnalysisURL appId query maxchars)
    = "https://www.wolframalpha.com/api/v1/llm-api" /\
  In ("appid", appId) (searchParams (quickAnswerURL appId query units)) /\
  In ("i", query) (searchParams (quickAnswerURL appId query units)) /\
  In ("appid", appId)
     (searchParams (detailedAnalysisURL appId query maxchars)) /\
  In ("input", query)
     (searchParams (detailedAnalysisURL appId query maxchars)) /\
  (forall u, In ("units", u) (searchParams (quickAnswerURL appId query units))
             <-> units = Some u /\ truthy u = true).
Proof.
  split.
  { unfold getQuickAnswer, try_catch, bind, call_fetch, throw, lift, ret.
    destruct (fetch _ _ _) as [[response|e0] n]; cbv beta iota;
      [|eexists _, _; repeat split; reflexivity].
    repeat match goal with
    | |- context [if ?b then _ else _] =>
        destruct b; cbv beta iota; [eexists _, _; repeat split; reflexivity|]
    end.
    destruct (text response) as [body|e1];
      eexists _, _; repeat split; reflexivity. }
  split.
  { unfold getDetailedAnalysis, try_catch, bind, call_fetch, throw, lift, ret.
    destruct (fetch _ _ _) as [[response|e0] n]; cbv beta iota;
      [|eexists _, _; repeat split; reflexivity].
    destruct (status response =? 501).
    { destruct (text response) as [body|e1];
        eexists _, _; repeat split; reflexivity. }
    repeat match goal with
    | |- context [if ?b then _ else _] =>
        destruct b; cbv beta iota; [eexists _, _; repeat split; reflexivity|]
    end.
    destruct (text response) as [body|e1];
      eexists _, _; repeat split; reflexivity. }
  do 4 (split; [reflexivity|]).
  split; [left; reflexivity|].
  split; [right; left; reflexivity|].
  split; [left; reflexivity|].
  split; [right; left; reflexivity|].
  intros u. unfold quickAnswerURL. cbn [searchParams app In].
  destruct units as [u0|]; [destruct (truthy u0) eqn:Hu0|]; cbn [In].
  - split.
    + intros [H0 | [H0 | [H0 | []]]]; try discriminate H0.
      injection H0 as <-. auto.
    + intros [[= <-] _]. auto.
  - split.
    + intros [H0 | [H0 | []]]; discriminate H0.
    + intros [[= <-] Hu]. congruence.
  - split.
    + intros [H0 | [H0 | []]]; discriminate H0.
    + intros [Hn _]. discriminate Hn.
Qed.

(** X4: a client method returns normally only when [fetch] gave a response
    with a status in 200-299 whose body could be read; the result is that
    body trimmed, so it neither starts nor ends with white space. *)
Theorem client_returns_only_on_success (appId : string) (t : Tool)
  (w : World K D N R) (raw : string) :
  clientResult appId t w = Ok raw ->
  exists response body,
    fst (fetch (network w) (toolURL appId t) GET_init) = Ok response /\
    ok response = true /\
    text response = Ok body /\
    raw = trim body /\
    startsWithWhiteSpace raw = false /\
    endsWithWhiteSpace raw = false.
Proof.
  unfold clientResult.
  destruct t as [query units | query maxchars]; cbn [toolExecute toolURL];
    unfold getQuickAnswer, getDetailedAnalysis, try_catch, bind, call_fetch,
      throw, lift, ret;
    destruct (fetch _ _ _) as [[response|e0] n]; cbv beta iota; cbn [fst];
    try discriminate.
  - destruct (status response =? 501); [discriminate|].
    destruct (status response =? 400); [discriminate|].
    destruct (status response =? 403); [discriminate|].
    destruct (ok response) eqn:Hok; cbn [negb]; [|discriminate].
    destruct (text response) as [body|e] eqn:Hbody; cbn [fst];
      [|discriminate].
    intros [= <-]. exists response, body.
    destruct (trim_spec body) as (l & r & _ & _ & _ & Hs & He).
    repeat split; assumption.
  - destruct (status response =? 501).
    { destruct (text response); discriminate. }
    destruct (status response =? 400); [discriminate|].
    destruct (status response =? 403); [discriminate|].
    destruct (ok response) eqn:Hok; cbn [negb]; [|discriminate].
    destruct (text response) as [body|e] eqn:Hbody; cbn [fst];
      [|discriminate].
    intros [= <-]. exists response, body.
    destruct (trim_spec body) as (l & r & _ & _ & _ & Hs & He).
    repeat split; assumption.
Qed.

(** ** What an invocation leaves untouched *)

(** X5: when the client method throws (any upstream failure), the handler
    returns the error response with that message; it has made the one
    request but run no sanitizer, charged nothing and written nothing to
    the cache: the token database is as the balance check left it. *)
Theorem upstream_failure_isolated (props : option Props) (appId : string)
  (t : Tool) (w : World K D N R) (user : string) (b : BalanceCheck) (d : D)
  (e : Thrown) :
  props_userId props = Some user -> truthy user = true ->
  fst (checkCache (toolCacheKey t) w) = Ok None ->
  checkBalance (TOKEN_DB w) user (toolCost t) = (Ok b, d) ->
  sufficient b = true ->
  clientResult appId t w = Throw e ->
  exists w' evs,
    invoke props appId t w =
      (Ok (mkToolResponse
             [mkContentItem "text" ("Error: " +:+ messageOrString e)]
             (Some true)),
       w') /\
    log w' = log w ++ evs /\
    count is_fetch evs = 1%nat /\
    count is_sanitize evs = O /\
    count is_consume evs = O /\
    count is_cache_put evs = O /\
    TOKEN_DB w' = d /\
    CACHE_KV w' = snd (kv_get (CACHE_KV w) (toolCacheKey t)).
Proof.
  intros Hprops Huser Hmiss Hbal Hsuff Hcl.
  apply checkCache_lookup in Hmiss.
  run_cases props appId t w resp w' Hinv Hrun.
  eexists _, _. split; [exact Hinv|].
  split; [reflexivity|]. repeat split; reflexivity.
Qed.

(** X6: without a user id in the authentication context (absent props,
    absent or empty [userId]) the handler returns the error response and
    has called nothing but [crypto.randomUUID]: the cache, the token
    database and the network are untouched. *)
Theorem missing_user_touches_nothing (props : option Props) (appId : string)
  (t : Tool) (w : World K D N R) :
  truthy_opt (props_userId props) = false ->
  exists w',
    invoke props appId t w =
      (Ok (mkToolResponse
             [mkContentItem "text"
                "Error: User ID not found in authentication context"]
             (Some true)),
       w') /\
    log w' = log w ++ [EvRandomUUID (fst (randomUUID (crypto w)))] /\
    CACHE_KV w' = CACHE_KV w /\
    TOKEN_DB w' = TOKEN_DB w /\
    network w' = network w.
Proof.
  intros Hno.
  destruct (invoke_run props appId t w) as (u & p & w' & Hinv & Hrun).
  inversion Hrun; subst;
    try match goal with
    | Hp : props_userId props = Some _, Ht : truthy _ = true |- _ =>
        rewrite Hp in Hno; simpl in Hno; congruence
    end.
  eexists. split; [exact Hinv|]. repeat split; reflexivity.
Qed.

(** X7: when the consume operation throws, the handler returns the error
    response with that message and writes nothing to the cache, although
    the external call has been made; there is no second attempt and no
    compensation. *)
Theorem charge_failure_not_cached (props : option Props) (appId : string)
  (t : Tool) (w : World K D N R) (user : string) (b : BalanceCheck) (d d' : D)
  (raw s : string) (r : RedactResult) (e : Thrown) :
  props_userId props = Some user -> truthy user = true ->
  fst (checkCache (toolCacheKey t) w) = Ok None ->
  checkBalance (TOKEN_DB w) user (toolCost t) = (Ok b, d) ->
  sufficient b = true ->
  clientResult appId t w = Ok raw ->
  sanitizeOutput raw (toolSanitizeOptions t) = Ok s ->
  redactPII s redactOptions = Ok r ->
  consumeTokensWithRetry d
    (toolConsumption t user (redacted r) (fst (randomUUID (crypto w))))
    = (Throw e, d') ->
  exists w' evs,
    invoke props appId t w =
      (Ok (mkToolResponse
             [mkContentItem "text" ("Error: " +:+ messageOrString e)]
             (Some true)),
       w') /\
    log w' = log w ++ evs /\
    count is_fetch evs = 1%nat /\
    count is_consume evs = 1%nat /\
    count is_cache_put evs = O /\
    TOKEN_DB w' = d' /\
    CACHE_KV w' = snd (kv_get (CACHE_KV w) (toolCacheKey t)).
Proof.
  intros Hprops Huser Hmiss Hbal Hsuff Hcl Hsan Hred Hcons.
  apply checkCache_lookup in Hmiss.
  run_cases props appId t w resp w' Hinv Hrun.
  eexists _, _. split; [exact Hinv|].
  split; [reflexivity|]. repeat split; reflexivity.
Qed.

(** X8: an invocation that returns an error-flagged response has written
    nothing to the cache, and it has called the consume operation only if
    that very call threw.  Conversely, whatever an invocation writes to the
    cache is the text of its (unflagged) response, under the tool's key and
    with the 900-second TTL. *)
Theorem error_never_cached (props : option Props) (appId : string) (t : Tool)
  (w : World K D N R) :
  exists resp w' evs,
    invoke props appId t w = (Ok resp, w') /\
    log w' = log w ++ evs /\
    (isError resp = Some true ->
       count is_cache_put evs = O /\
       (forall c, In (EvConsume c) evs ->
          exists d e d',
            consumeTokensWithRetry d c = (Throw e, d') /\
            resp = errorResponse e)) /\
    (forall key value ttl, In (EvCachePut key value ttl) evs ->
       resp = mkToolResponse [mkContentItem "text" value] None /\
       key = toolCacheKey t /\ ttl = 900).
Proof.
  run_cases props appId t w resp w' Hinv Hrun;
    (eexists _, _, _; split; [exact Hinv|]; split; [reflexivity|]);
    (split; [intros Herr; try discriminate Herr;
             (split; [reflexivity|]);
             intros c Hin; in_events Hin; eauto 6|]);
    intros key value ttl Hin; in_events Hin.
  repeat split; reflexivity.
Qed.

(** X9: an invocation calls each collaborator at most once: one cache
    read, one balance check, one request, one sanitizer and one redactor
    call, one cache write at most; nothing is retried or repeated. *)
Theorem at_most_one_call_each (props : option Props) (appId : string)
  (t : Tool) (w : World K D N R) :
  exists resp w' evs,
    invoke props appId t w = (Ok resp, w') /\
    log w' = log w ++ evs /\
    (count is_cache_get evs <= 1)%nat /\
    (count is_check_balance evs <= 1)%nat /\
    (count is_fetch evs <= 1)%nat /\
    (count is_sanitize evs <= 1)%nat /\
    (count is_redact evs <= 1)%nat /\
    (count is_cache_put evs <= 1)%nat /\
    (length evs <= 8)%nat.
Proof.
  run_cases props appId t w resp w' Hinv Hrun;
    (eexists _, _, _; split; [exact Hinv|]; split; [reflexivity|]);
    cbn; repeat split; lia.
Qed.


(** X11: every response has exactly one content item, of type ["text"],
    and its [isError] field is either absent or [true]. *)
Theorem response_shape (props : option Props) (appId : string) (t : Tool)
  (w : World K D N R) :
  exists resp w',
    invoke props appId t w = (Ok resp, w') /\
    (exists body, content resp = [mkContentItem "text" body]) /\
    (isError resp = None \/ isError resp = Some true).
Proof.
  destruct (invoke_run props appId t w) as (u & p & w' & Hinv & Hrun).
  exists (pathResponse t p), w'. split; [exact Hinv|].
  destruct p; cbn; eauto.
Qed.

(** ** The cache across invocations *)

(** X12: on a store that gives back what was put, a value written by
    [storeCache] is what [checkCache] then returns for the same key,
    unless the value is empty, in which case [checkCache] answers [null]. *)
Theorem store_then_check (key value : string) (w : World K D N R) :
  (forall v k' key', fst (kv_put k' key' v 900) = Ok tt ->
     fst (kv_get (snd (kv_put k' key' v 900)) key') = Ok (Some v)) ->
  fst (kv_put (CACHE_KV w) key value 900) = Ok tt ->
  fst (checkCache key (snd (storeCache key value w)))
    = Ok (if truthy value then Some value else None).
Proof.
  intros Hlaw Hput.
  rewrite storeCache_run, checkCache_run. cbn [fst snd].
  unfold cacheLookup.
  cbn [CACHE_KV record set_CACHE_KV].
  rewrite (Hlaw _ _ _ Hput). reflexivity.
Qed.

(** X13: after an invocation that missed the cache, succeeded with a
    non-empty result and whose cache write succeeded, on a store that gives
    back what was put, the same request made next by any authenticated
    caller (the key does not name the user) is answered from the cache:
    the response is the marker followed by the first result, and that
    invocation checks no balance, makes no request and charges nothing, so
    the token database is unchanged. *)
Theorem repeated_request_served_from_cache (props props2 : option Props)
  (appId appId2 : string) (t : Tool) (w : World K D N R)
  (user user2 result : string) :
  (forall v k' key, fst (kv_put k' key v 900) = Ok tt ->
     fst (kv_get (snd (kv_put k' key v 900)) key) = Ok (Some v)) ->
  props_userId props = Some user -> truthy user = true ->
  props_userId props2 = Some user2 -> truthy user2 = true ->
  fst (checkCache (toolCacheKey t) w) = Ok None ->
  fst (invoke props appId t w)
    = Ok (mkToolResponse [mkContentItem "text" result] None) ->
  truthy result = true ->
  fst (kv_put (snd (kv_get (CACHE_KV w) (toolCacheKey t)))
         (toolCacheKey t) result 900) = Ok tt ->
  let w1 := snd (invoke props appId t w) in
  exists w2 evs2,
    invoke props2 appId2 t w1 =
      (Ok (mkToolResponse
             [mkContentItem "text" ("[Cached Result]" +:+ LF +:+ LF +:+ result)]
             None),
       w2) /\
    log w2 = log w1 ++ evs2 /\
    count is_check_balance evs2 = O /\
    count is_fetch evs2 = O /\
    count is_consume evs2 = O /\
    count is_cache_put evs2 = O /\
    TOKEN_DB w2 = TOKEN_DB w1.
Proof.
  intros Hlaw Hprops Huser Hprops2 Huser2 Hmiss Hfirst Hresult Hput w1.
  apply checkCache_lookup in Hmiss.
  assert (Hstored :
    fst (kv_get (CACHE_KV w1) (toolCacheKey t)) = Ok (Some result)).
  { subst w1. revert Hfirst.
    destruct (invoke_run props appId t w) as (u & p & w' & Hinv & Hrun).
    rewrite Hinv. cbn [fst snd]. intros Hresp.
    inversion Hrun; subst; try discriminate Hresp;
      try (rewrite Hmiss in *; discriminate).
    injection Hresp as Hred. cbn [CACHE_KV]. rewrite Hred in *.
    apply Hlaw. exact Hput. }
  assert (Hhit : cacheLookup (CACHE_KV w1) (toolCacheKey t) = Some result).
  { unfold cacheLookup. rewrite Hstored, Hresult. reflexivity. }
  clearbody w1. clear Hprops Huser Hmiss Hfirst Hput.
  run_cases props2 appId2 t w1 resp2 w2 Hinv Hrun.
  eexists _, _. split; [exact Hinv|].
  split; [reflexivity|]. repeat split; reflexivity.
Qed.

(** ** Cache keys and arguments *)

Lemma string_length_append (a b : string) :
  String.length (a +:+ b) = (String.length a + String.length b)%nat.
Proof.
  induction a as [|c a IH]; [reflexivity|].
  change (String c a +:+ b) with (String c (a +:+ b)).
  cbn [String.length]. rewrite IH. reflexivity.
Qed.

Lemma append_inj_l (a b s : string) : a +:+ s = b +:+ s -> a = b.
Proof.
  revert b. induction a as [|c a IH]; intros [|c' b] Heq.
  - reflexivity.
  - apply (f_equal String.length) in Heq.
    change ("" +:+ s) with s in Heq.
    change (String c' b +:+ s) with (String c' (b +:+ s)) in Heq.
    cbn [String.length] in Heq.
    rewrite string_length_append in Heq. lia.
  - apply (f_equal String.length) in Heq.
    change ("" +:+ s) with s in Heq.
    change (String c a +:+ s) with (String c (a +:+ s)) in Heq.
    cbn [String.length] in Heq.
    rewrite string_length_append in Heq. lia.
  - injection Heq as -> Heq. rewrite (IH b Heq). reflexivity.
Qed.

Lemma to_int_proper (n : Z) :
  Z.to_int n <> Decimal.Pos Decimal.Nil /\
  Z.to_int n <> Decimal.Neg Decimal.Nil.
Proof.
  destruct n as [|p|p]; cbn.
  - split; discriminate.
  - split; [|discriminate]. intros [= Hp].
    exact (DecimalPos.Unsigned.to_uint_nonnil p Hp).
  - split; [discriminate|]. intros [= Hp].
    exact (DecimalPos.Unsigned.to_uint_nonnil p Hp).
Qed.

Lemma String_of_number_inj (n m : Z) :
  String_of_number n = String_of_number m -> n = m.
Proof.
  unfold String_of_number. intros Heq.
  apply (f_equal NilZero.int_of_string) in Heq.
  destruct (to_int_proper n) as [Hn1 Hn2].
  destruct (to_int_proper m) as [Hm1 Hm2].
  rewrite !NilZero.isi in Heq by assumption.
  injection Heq as Heq. apply DecimalZ.to_int_inj. exact Heq.
Qed.

Lemma String_of_number_nonempty (n : Z) : String_of_number n <> "".
Proof.
  unfold String_of_number. intros Heq.
  apply (f_equal NilZero.int_of_string) in Heq.
  destruct (to_int_proper n) as [Hn1 Hn2].
  rewrite NilZero.isi in Heq by assumption. discriminate Heq.
Qed.

(** X14: requests of one tool that differ only in the query, or only in
    the units (respectively, for arguments that pass the schema, only in
    the character limit), never share a cache key, and no key of a quick
    answer is a key of a detailed analysis. *)
Theorem cache_keys_separate_requests :
  (forall q1 q2 units,
     toolCacheKey (QuickAnswer q1 units) = toolCacheKey (QuickAnswer q2 units)
     -> q1 = q2) /\
  (forall query u1 u2,
     toolCacheKey (QuickAnswer query u1) = toolCacheKey (QuickAnswer query u2)
     -> u1 = u2) /\
  (forall q1 q2 maxchars,
     toolCacheKey (DetailedAnalysis q1 maxchars)
       = toolCacheKey (DetailedAnalysis q2 maxchars)
     -> q1 = q2) /\
  (forall query m1 m2,
     detailedAnalysisSchema query m1 = true ->
     detailedAnalysisSchema query m2 = true ->
     toolCacheKey (DetailedAnalysis query m1)
       = toolCacheKey (DetailedAnalysis query m2)
     -> m1 = m2) /\
  (forall q1 units q2 maxchars,
     toolCacheKey (QuickAnswer q1 units)
       <> toolCacheKey (DetailedAnalysis q2 maxchars)).
Proof.
  split.
  { intros q1 q2 units Heq. unfold toolCacheKey, getCacheKey in Heq.
    apply (append_inj_r "wolfram:") in Heq.
    apply (append_inj_r (toolName (QuickAnswer q1 units))) in Heq.
    apply (append_inj_r ":") in Heq.
    cbn [canonicalQuery] in Heq. eapply append_inj_l. exact Heq. }
  split.
  { intros query u1 u2 Heq. unfold toolCacheKey, getCacheKey in Heq.
    apply (append_inj_r "wolfram:") in Heq.
    apply (append_inj_r (toolName (QuickAnswer query u1))) in Heq.
    apply (append_inj_r ":") in Heq.
    cbn [canonicalQuery] in Heq. apply append_inj_r in Heq.
    destruct u1 as [[|]|], u2 as [[|]|]; try reflexivity; discriminate Heq. }
  split.
  { intros q1 q2 maxchars Heq. unfold toolCacheKey, getCacheKey in Heq.
    apply (append_inj_r "wolfram:") in Heq.
    apply (append_inj_r (toolName (DetailedAnalysis q1 maxchars))) in Heq.
    apply (append_inj_r ":") in Heq.
    cbn [canonicalQuery] in Heq. eapply append_inj_l. exact Heq. }
  split.
  { intros query m1 m2 H1 H2 Heq. unfold toolCacheKey, getCacheKey in Heq.
    apply (append_inj_r "wolfram:") in Heq.
    apply (append_inj_r (toolName (DetailedAnalysis query m1))) in Heq.
    apply (append_inj_r ":") in Heq.
    cbn [canonicalQuery] in Heq. apply append_inj_r in Heq.
    unfold detailedAnalysisSchema in H1, H2.
    apply andb_prop in H1 as [_ H1]. apply andb_prop in H2 as [_ H2].
    destruct m1 as [m1|], m2 as [m2|]; cbn [truthy_num default] in Heq.
    - apply andb_prop in H1 as [H1 _]. apply andb_prop in H2 as [H2 _].
      apply Z.leb_le in H1, H2.
      assert (E1 : (m1 =? 0) = false) by (apply Z.eqb_neq; lia).
      assert (E2 : (m2 =? 0) = false) by (apply Z.eqb_neq; lia).
      rewrite E1, E2 in Heq. cbn [negb] in Heq.
      apply String_of_number_inj in Heq. f_equal. exact Heq.
    - apply andb_prop in H1 as [H1 _]. apply Z.leb_le in H1.
      assert (E1 : (m1 =? 0) = false) by (apply Z.eqb_neq; lia).
      rewrite E1 in Heq. cbn [negb] in Heq.
      exfalso. exact (String_of_number_nonempty m1 Heq).
    - apply andb_prop in H2 as [H2 _]. apply Z.leb_le in H2.
      assert (E2 : (m2 =? 0) = false) by (apply Z.eqb_neq; lia).
      rewrite E2 in Heq. cbn [negb] in Heq.
      exfalso. symmetry in Heq. exact (String_of_number_nonempty m2 Heq).
    - reflexivity. }
  intros q1 units q2 maxchars Heq. unfold toolCacheKey, getCacheKey in Heq.
  apply (append_inj_r "wolfram:") in Heq.
  apply colon_split_inj in Heq as [Hname _]; [discriminate Hname | |];
    reflexivity.
Qed.

(** X15: for arguments that pass the schema of the detailed tool, the
    length limit given to the sanitizer is the character limit of the call,
    between 1000 and 10000, or 6800 when none is given; the request carries
    the [maxchars] parameter exactly when a limit is given.  The quick tool
    always sanitizes to 5000 characters. *)
Theorem detailed_limits_under_schema (appId query : string)
  (maxchars : option Z) :
  detailedAnalysisSchema query maxchars = true ->
  maxLength (toolSanitizeOptions (DetailedAnalysis query maxchars))
    = default 6800 maxchars /\
  1000 <= maxLength (toolSanitizeOptions (DetailedAnalysis query maxchars))
       <= 10000 /\
  (forall v, In ("maxchars", v)
               (searchParams (detailedAnalysisURL appId query maxchars))
             <-> exists m, maxchars = Some m /\ v = String_of_number m) /\
  (forall q units,
     maxLength (toolSanitizeOptions (QuickAnswer q units)) = 5000).
Proof.
  intros Hs. unfold detailedAnalysisSchema in Hs.
  apply andb_prop in Hs as [_ Hs].
  destruct maxchars as [m|].
  - apply andb_prop in Hs as [Hlo Hhi]. apply Z.leb_le in Hlo, Hhi.
    assert (E : (m =? 0) = false) by (apply Z.eqb_neq; lia).
    unfold toolSanitizeOptions, detailedAnalysisURL.
    cbn [maxLength truthy_num searchParams]. rewrite E. cbn.
    split; [reflexivity|]. split; [lia|].
    split; [|reflexivity].
    intros v. cbn [app In]. split.
    + intros [H0 | [H0 | [H0 | []]]]; try discriminate H0.
      injection H0 as <-. eauto.
    + intros (m' & [= <-] & ->). auto.
  - cbn. split; [reflexivity|]. split; [lia|].
    split; [|reflexivity].
    intros v. split.
    + intros [H0 | [H0 | []]]; discriminate H0.
    + intros (m' & Hm & _). discriminate Hm.
Qed.

End Properties.

(** * Concrete runs *)

Import Memory.

Lemma Memory_KV_faithful (v : string) (k : KV) (key : string) :
  fst (kv_put k key v 900) = Ok tt ->
  fst (kv_get (snd (kv_put k key v 900)) key) = Ok (Some v).
Proof.
  unfold kv_put, kv_get, KV_namespace.
  destruct (kv_outage k) as [e|]; simpl; [discriminate|].
  intros _. rewrite lookup_insert_eq. reflexivity.
Qed.

(** The scenario of the specification: balance 10, cost 2, the answer
    ["2,789 km"] is returned, charged once and cached. *)
Example scenario_first_call :
  let r := invoke alice "APP" laToNy (start 200 "2,789 km") in
  fst r = Ok (mkToolResponse [mkContentItem "text" "2,789 km"] None) /\
  balanceOf (TOKEN_DB (snd r)) "user-1" = 8 /\
  entries (CACHE_KV (snd r))
    !! "wolfram:getQuickAnswer:distance from LA to NYmetric"
    = Some ("2,789 km", 900) /\
  count is_consume (log (snd r)) = 1%nat.
Proof. vm_compute. repeat split; reflexivity. Qed.

(** The same query repeated at once: a cache hit, and no second charge. *)
Example scenario_second_call :
  let r1 := invoke alice "APP" laToNy (start 200 "2,789 km") in
  let r2 := invoke alice "APP" laToNy (snd r1) in
  fst r2 = Ok (cachedResponse "2,789 km") /\
  balanceOf (TOKEN_DB (snd r2)) "user-1" = 8 /\
  count is_consume (log (snd r2)) = 1%nat.
Proof. vm_compute. repeat split; reflexivity. Qed.

Lemma insufficient_balance_gate_witness :
  (props_userId alice = Some "user-1" /\
   truthy "user-1" = true /\
   fst (checkCache (toolCacheKey laToNy) (poor 200 "2,789 km")) = Ok None /\
   checkBalance (TOKEN_DB (poor 200 "2,789 km")) "user-1" (toolCost laToNy)
     = (Ok (mkBalanceCheck false 1), TOKEN_DB (poor 200 "2,789 km")) /\
   sufficient (mkBalanceCheck false 1) = false) /\
  exists w' evs,
    invoke alice "APP" laToNy (poor 200 "2,789 km") =
      (Ok (mkToolResponse
             [mkContentItem "text"
                (formatInsufficientTokensError (toolName laToNy)
                   (currentBalance (mkBalanceCheck false 1))
                   (toolCost laToNy))]
             (Some true)),
       w') /\
    log w' = log (poor 200 "2,789 km") ++ evs /\
    count is_fetch evs = O /\
    count is_consume evs = O /\
    count is_cache_put evs = O /\
    network w' = network (poor 200 "2,789 km") /\
    TOKEN_DB w' = TOKEN_DB (poor 200 "2,789 km") /\
    CACHE_KV w' =
      snd (kv_get (CACHE_KV (poor 200 "2,789 km")) (toolCacheKey laToNy)).
Proof.
  assert (H1 : props_userId alice = Some "user-1") by reflexivity.
  assert (H2 : truthy "user-1" = true) by reflexivity.
  assert (H3 : fst (checkCache (toolCacheKey laToNy) (poor 200 "2,789 km"))
               = Ok None)
    by (vm_compute; reflexivity).
  assert (H4 : checkBalance (TOKEN_DB (poor 200 "2,789 km")) "user-1"
                 (toolCost laToNy)
               = (Ok (mkBalanceCheck false 1),
                  TOKEN_DB (poor 200 "2,789 km")))
    by (vm_compute; reflexivity).
  assert (H5 : sufficient (mkBalanceCheck false 1) = false) by reflexivity.
  split; [repeat split; assumption|].
  exact (insufficient_balance_gate alice "APP" laToNy (poor 200 "2,789 km")
           "user-1" (mkBalanceCheck false 1) (TOKEN_DB (poor 200 "2,789 km"))
           H1 H2 H3 H4 H5).
Defined.

Lemma cache_hit_short_circuit_witness :
  (props_userId alice = Some "user-1" /\
   truthy "user-1" = true /\
   fst (checkCache (toolCacheKey laToNy) afterFirst)
     = Ok (Some "2,789 km")) /\
  exists w' evs,
    invoke alice "APP" laToNy afterFirst =
      (Ok (mkToolResponse
             [mkContentItem "text"
                ("[Cached Result]" +:+ LF +:+ LF +:+ "2,789 km")]
             None),
       w') /\
    log w' = log afterFirst ++ evs /\
    evs = [EvRandomUUID (fst (randomUUID (crypto afterFirst)));
           EvCacheGet (toolCacheKey laToNy)] /\
    count is_check_balance evs = O /\
    count is_fetch evs = O /\
    count is_consume evs = O /\
    count is_cache_put evs = O /\
    TOKEN_DB w' = TOKEN_DB afterFirst /\
    network w' = network afterFirst.
Proof.
  assert (H1 : props_userId alice = Some "user-1") by reflexivity.
  assert (H2 : truthy "user-1" = true) by reflexivity.
  assert (H3 : fst (checkCache (toolCacheKey laToNy) afterFirst)
               = Ok (Some "2,789 km")) by (vm_compute; reflexivity).
  split; [repeat split; assumption|].
  exact (cache_hit_short_circuit alice "APP" laToNy afterFirst
           "user-1" "2,789 km" H1 H2 H3).
Defined.

(** A first call whose upstream answer holds a card number. *)
Lemma sanitized_output_everywhere_witness :
  (fst (checkCache (toolCacheKey laToNy)
          (start 200 "card 4532-1111-2222-3333 ok")) = Ok None /\
   includes "card [REDACTED] ok" "4532-1111-2222-3333" = false) /\
  includes "card 4532-1111-2222-3333 ok" "4532-1111-2222-3333" = true /\
  exists resp w' evs,
    invoke alice "APP" laToNy (start 200 "card 4532-1111-2222-3333 ok")
      = (Ok resp, w') /\
    log w' = log (start 200 "card 4532-1111-2222-3333 ok") ++ evs /\
    resp = mkToolResponse [mkContentItem "text" "card [REDACTED] ok"] None /\
    (forall c, In (EvConsume c) evs ->
       includes (c_output c) "4532-1111-2222-3333" = false) /\
    (forall key value ttl, In (EvCachePut key value ttl) evs ->
       includes value "4532-1111-2222-3333" = false) /\
    (forall item, In item (content resp) ->
       includes (c_text item) "4532-1111-2222-3333" = false).
Proof.
  assert (H1 : fst (checkCache (toolCacheKey laToNy)
                      (start 200 "card 4532-1111-2222-3333 ok")) = Ok None)
    by (vm_compute; reflexivity).
  assert (H2 : includes "card [REDACTED] ok" "4532-1111-2222-3333" = false)
    by (vm_compute; reflexivity).
  split; [split; assumption|].
  split; [vm_compute; reflexivity|].
  destruct (sanitized_output_everywhere alice "APP" laToNy
              (start 200 "card 4532-1111-2222-3333 ok"))
    as (resp & w' & evs & Hinv & Hlog & _ & _ & Hok).
  exists resp, w', evs. split; [exact Hinv|]. split; [exact Hlog|].
  assert (Hresp : resp
            = mkToolResponse [mkContentItem "text" "card [REDACTED] ok"] None).
  { vm_compute in Hinv. injection Hinv as <- _. reflexivity. }
  split; [exact Hresp|].
  assert (Herr : isError resp = None) by (rewrite Hresp; reflexivity).
  destruct (Hok H1 Herr)
    as (raw & s & r & _ & _ & _ & _ & _ & _ & _ & _ & _ & Hr & Hfree).
  rewrite Hresp in Hr. injection Hr as Hr.
  apply Hfree. rewrite <- Hr. exact H2.
Defined.

Lemma pipeline_order_witness :
  (props_userId alice = Some "user-1" /\
   forall b,
     fst (checkBalance (TOKEN_DB (poor 200 "2,789 km")) "user-1"
            (toolCost laToNy)) = Ok b ->
     sufficient b = false) /\
  exists resp w' evs,
    invoke alice "APP" laToNy (poor 200 "2,789 km") = (Ok resp, w') /\
    log w' = log (poor 200 "2,789 km") ++ evs /\
    before is_check_balance is_fetch evs /\
    count is_fetch evs = O /\
    before is_consume is_cache_put evs.
Proof.
  assert (H1 : props_userId alice = Some "user-1") by reflexivity.
  assert (H2 : forall b,
            fst (checkBalance (TOKEN_DB (poor 200 "2,789 km")) "user-1"
                   (toolCost laToNy)) = Ok b ->
            sufficient b = false).
  { intros b Hb. vm_compute in Hb. injection Hb as <-. reflexivity. }
  split; [split; assumption|].
  destruct (pipeline_order alice "APP" laToNy (poor 200 "2,789 km"))
    as (resp & w' & evs & Hinv & Hlog & Hbf & Hnofetch & _ & _ & _ & Hcp & _).
  exists resp, w', evs. repeat split; try assumption.
  exact (Hnofetch "user-1" H1 H2).
Defined.

Lemma one_action_id_one_charge_witness :
  exists resp w' actionId rest,
    invoke alice "APP" laToNy (start 200 "2,789 km") = (Ok resp, w') /\
    log w' = log (start 200 "2,789 km") ++ EvRandomUUID actionId :: rest /\
    In (EvRedact "2,789 km" redactOptions) rest /\
    redactPII "2,789 km" redactOptions = Ok (mkRedactResult "2,789 km" []) /\
    count is_consume rest = 1%nat.
Proof.
  destruct (one_action_id_one_charge alice "APP" laToNy (start 200 "2,789 km"))
    as (resp & w' & actionId & rest & Hinv & Hlog & _ & _ & _ & Hone & _).
  exists resp, w', actionId, rest. split; [exact Hinv|]. split; [exact Hlog|].
  assert (Hin : In (EvRedact "2,789 km" redactOptions) rest).
  { vm_compute in Hinv. injection Hinv as _ <-.
    simpl in Hlog. injection Hlog as _ <-.
    do 4 right. left. reflexivity. }
  assert (Hred : redactPII "2,789 km" redactOptions
                 = Ok (mkRedactResult "2,789 km" []))
    by (vm_compute; reflexivity).
  split; [exact Hin|]. split; [exact Hred|].
  exact (Hone _ _ Hin Hred).
Defined.

(** The upstream answers 501: the client throws and the handler returns
    the error response. *)
Lemma no_exception_escapes_witness :
  (props_userId alice = Some "user-1" /\
   truthy "user-1" = true /\
   fst (checkCache (toolCacheKey laToNy) (start 501 "")) = Ok None /\
   checkBalance (TOKEN_DB (start 501 "")) "user-1" (toolCost laToNy)
     = (Ok (mkBalanceCheck true 10), TOKEN_DB (start 501 "")) /\
   clientResult "APP" laToNy (start 501 "")
     = Throw (ErrorObject
         "Failed to get quick answer: WolframAlpha could not interpret the query. Please rephrase or check spelling.")) /\
  fst (invoke alice "APP" laToNy (start 501 ""))
    = Ok (mkToolResponse
            [mkContentItem "text"
               "Error: Failed to get quick answer: WolframAlpha could not interpret the query. Please rephrase or check spelling."]
            (Some true)).
Proof.
  assert (H1 : props_userId alice = Some "user-1") by reflexivity.
  assert (H2 : truthy "user-1" = true) by reflexivity.
  assert (H3 : fst (checkCache (toolCacheKey laToNy) (start 501 ""))
               = Ok None) by (vm_compute; reflexivity).
  assert (H4 : checkBalance (TOKEN_DB (start 501 "")) "user-1"
                 (toolCost laToNy)
               = (Ok (mkBalanceCheck true 10), TOKEN_DB (start 501 "")))
    by (vm_compute; reflexivity).
  assert (H5 : clientResult "APP" laToNy (start 501 "")
               = Throw (ErrorObject
                   "Failed to get quick answer: WolframAlpha could not interpret the query. Please rephrase or check spelling."))
    by (vm_compute; reflexivity).
  split; [repeat split; assumption|].
  destruct (no_exception_escapes alice "APP" laToNy (start 501 ""))
    as (resp & w' & Hinv & _ & _ & _ & _ & Hsteps).
  rewrite Hinv. simpl.
  destruct (Hsteps "user-1" H1 H2 H3) as [_ Hrest].
  destruct (Hrest _ _ H4 eq_refl) as [Hclient _].
  rewrite (Hclient _ H5). reflexivity.
Defined.

(** The unamended statement of C7 fails on a stored empty string: the
    store holds a value for the key, and [checkCache] answers [null]. *)
Lemma checkCache_empty_value_counterexample :
  fst (kv_get (CACHE_KV afterBlank) (toolCacheKey laToNy)) = Ok (Some "") /\
  fst (checkCache (toolCacheKey laToNy) afterBlank) = Ok None /\
  fst (checkCache (toolCacheKey laToNy) afterBlank) <> Ok (Some "").
Proof. vm_compute. repeat split; discriminate. Qed.

Lemma cache_best_effort_witness :
  (kv_get (CACHE_KV afterFirst) (toolCacheKey laToNy)
     = (Ok (Some "2,789 km"), CACHE_KV afterFirst) /\
   truthy "2,789 km" = true) /\
  fst (checkCache (toolCacheKey laToNy) afterFirst) = Ok (Some "2,789 km") /\
  exists w',
    storeCache (toolCacheKey laToNy) "2,790 km" afterFirst = (Ok tt, w') /\
    log w' = log afterFirst
             ++ [EvCachePut (toolCacheKey laToNy) "2,790 km" 900].
Proof.
  assert (H1 : kv_get (CACHE_KV afterFirst) (toolCacheKey laToNy)
               = (Ok (Some "2,789 km"), CACHE_KV afterFirst))
    by (vm_compute; reflexivity).
  assert (H2 : truthy "2,789 km" = true) by reflexivity.
  split; [split; assumption|].
  destruct (cache_best_effort (toolCacheKey laToNy) "2,790 km" afterFirst)
    as (_ & Hhit & _ & _ & (w' & Hstore & Hlog & _) & _).
  split; [exact (Hhit _ _ H1 H2)|].
  exists w'. split; assumption.
Defined.

Lemma quick_answer_status_mapping_witness :
  (fetch (network (start 501 "")) (quickAnswerURL "APP" "xyzzy" None) GET_init
     = (Ok (mkResponse 501 "" (Ok "")), network (start 501 "")) /\
   status (mkResponse 501 "" (Ok "")) = 501) /\
  fst (getQuickAnswer "APP" "xyzzy" None (start 501 ""))
    = Throw (ErrorObject
        "Failed to get quick answer: WolframAlpha could not interpret the query. Please rephrase or check spelling.").
Proof.
  assert (H1 : fetch (network (start 501 ""))
                 (quickAnswerURL "APP" "xyzzy" None) GET_init
               = (Ok (mkResponse 501 "" (Ok "")), network (start 501 "")))
    by reflexivity.
  assert (H2 : status (mkResponse 501 "" (Ok "")) = 501) by reflexivity.
  split; [split; assumption|].
  exact (proj1 (quick_answer_status_mapping "APP" "xyzzy" None (start 501 "")
                  (mkResponse 501 "" (Ok "")) (network (start 501 "")) H1)
           H2).
Defined.

(** The unamended statement of C9 fails twice: the key of the scenario has
    no space before the units, and two different argument sets share a
    key. *)
Lemma cache_key_counterexample :
  toolCacheKey (QuickAnswer "distance from LA to NY" (Some metric))
    <> "wolfram:getQuickAnswer:distance from LA to NY metric" /\
  QuickAnswer "speed in metric" None <> QuickAnswer "speed in " (Some metric) /\
  toolCacheKey (QuickAnswer "speed in metric" None)
    = toolCacheKey (QuickAnswer "speed in " (Some metric)).
Proof. repeat split; [vm_compute; discriminate | discriminate]. Qed.

Lemma cache_key_shape_witness :
  (includes "getQuickAnswer" ":" = false /\
   includes "getDetailedAnalysis" ":" = false) /\
  getCacheKey "getQuickAnswer" "pi" <> getCacheKey "getDetailedAnalysis" "pi".
Proof.
  assert (H1 : includes "getQuickAnswer" ":" = false) by reflexivity.
  assert (H2 : includes "getDetailedAnalysis" ":" = false) by reflexivity.
  split; [split; assumption|].
  intros Heq.
  destruct cache_key_shape as (_ & _ & Hinj & _).
  destruct (Hinj _ _ _ _ H1 H2 Heq) as [Hname _]. discriminate Hname.
Defined.

(** A first call whose result is empty, then the same call again. *)
Lemma empty_result_is_never_a_hit_witness :
  ((forall v k' key, fst (kv_put k' key v 900) = Ok tt ->
      fst (kv_get (snd (kv_put k' key v 900)) key) = Ok (Some v)) /\
   props_userId alice = Some "user-1" /\
   truthy "user-1" = true /\
   fst (invoke alice "APP" laToNy (start 200 "   "))
     = Ok (mkToolResponse [mkContentItem "text" ""] None) /\
   fst (kv_put
          (snd (kv_get (CACHE_KV (start 200 "   ")) (toolCacheKey laToNy)))
          (toolCacheKey laToNy) "" 900) = Ok tt) /\
  fst (checkCache (toolCacheKey laToNy) afterBlank) = Ok None /\
  exists resp2 w2 evs2,
    invoke alice "APP" laToNy afterBlank = (Ok resp2, w2) /\
    log w2 = log afterBlank ++ evs2 /\
    count is_check_balance evs2 = 1%nat.
Proof.
  assert (H0 : forall v k' key, fst (kv_put k' key v 900) = Ok tt ->
            fst (kv_get (snd (kv_put k' key v 900)) key) = Ok (Some v))
    by exact Memory_KV_faithful.
  assert (H1 : props_userId alice = Some "user-1") by reflexivity.
  assert (H2 : truthy "user-1" = true) by reflexivity.
  assert (H3 : fst (invoke alice "APP" laToNy (start 200 "   "))
               = Ok (mkToolResponse [mkContentItem "text" ""] None))
    by (vm_compute; reflexivity).
  assert (H4 : fst (kv_put
                 (snd (kv_get (CACHE_KV (start 200 "   "))
                         (toolCacheKey laToNy)))
                 (toolCacheKey laToNy) "" 900) = Ok tt)
    by (vm_compute; reflexivity).
  split; [repeat split; assumption|].
  destruct (empty_result_is_never_a_hit alice "APP" laToNy (start 200 "   ")
              "user-1" H0 H1 H2 H3 H4)
    as (Hmiss & resp2 & w2 & evs2 & Hinv & Hlog & Hbal & _).
  split; [exact Hmiss|].
  exists resp2, w2, evs2. repeat split; assumption.
Defined.

(** The second call of that run is charged again. *)
Example blank_answer_charged_twice :
  let r2 := invoke alice "APP" laToNy afterBlank in
  count is_fetch (log (snd r2)) = 2%nat /\
  count is_consume (log (snd r2)) = 2%nat /\
  balanceOf (TOKEN_DB (snd r2)) "user-1" = 6.
Proof. vm_compute. repeat split; reflexivity. Qed.

(** ** Concrete runs of the further properties *)

Lemma detailed_analysis_status_mapping_witness :
  (fetch (network (start 501 "density of osmium"))
     (detailedAnalysisURL "APP" "densest metl" (Some 1500)) GET_init
     = (Ok (mkResponse 501 "" (Ok "density of osmium")),
        network (start 501 "density of osmium")) /\
   status (mkResponse 501 "" (Ok "density of osmium")) = 501 /\
   text (mkResponse 501 "" (Ok "density of osmium")) = Ok "density of osmium" /\
   truthy "density of osmium" = true) /\
  fst (getDetailedAnalysis "APP" "densest metl" (Some 1500)
         (start 501 "density of osmium"))
    = Throw (ErrorObject
        ("Failed to get detailed analysis: WolframAlpha could not interpret the query. Suggestions: "
         +:+ "density of osmium")).
Proof.
  assert (H1 : fetch (network (start 501 "density of osmium"))
                 (detailedAnalysisURL "APP" "densest metl" (Some 1500))
                 GET_init
               = (Ok (mkResponse 501 "" (Ok "density of osmium")),
                  network (start 501 "density of osmium"))) by reflexivity.
  assert (H2 : status (mkResponse 501 "" (Ok "density of osmium")) = 501)
    by reflexivity.
  assert (H3 : text (mkResponse 501 "" (Ok "density of osmium"))
               = Ok "density of osmium") by reflexivity.
  assert (H4 : truthy "density of osmium" = true) by reflexivity.
  split; [repeat split; assumption|].
  exact (proj1 (detailed_analysis_status_mapping "APP" "densest metl"
                  (Some 1500) (start 501 "density of osmium")
                  (mkResponse 501 "" (Ok "density of osmium"))
                  (network (start 501 "density of osmium")) H1)
           "density of osmium" H2 H3 H4).
Defined.

Lemma client_failures_are_prefixed_witness :
  fetch (network offline) (quickAnswerURL "APP" "pi" None) GET_init
    = (Throw (OtherValue "socket hang up"), network offline) /\
  fst (getQuickAnswer "APP" "pi" None offline)
    = Throw (ErrorObject "Failed to get quick answer: Unknown error").
Proof.
  assert (H1 : fetch (network offline) (quickAnswerURL "APP" "pi" None)
                 GET_init
               = (Throw (OtherValue "socket hang up"), network offline))
    by reflexivity.
  split; [exact H1|].
  destruct (client_failures_are_prefixed "APP" "pi" None None offline)
    as (_ & _ & Hq & _).
  exact (Hq _ _ H1).
Defined.

Lemma client_returns_only_on_success_witness :
  clientResult "APP" laToNy (start 200 "  2,789 km  ") = Ok "2,789 km" /\
  exists response body,
    fst (fetch (network (start 200 "  2,789 km  ")) (toolURL "APP" laToNy)
           GET_init) = Ok response /\
    ok response = true /\
    text response = Ok body /\
    "2,789 km" = trim body /\
    startsWithWhiteSpace "2,789 km" = false /\
    endsWithWhiteSpace "2,789 km" = false.
Proof.
  assert (H1 : clientResult "APP" laToNy (start 200 "  2,789 km  ")
               = Ok "2,789 km") by (vm_compute; reflexivity).
  split; [exact H1|].
  exact (client_returns_only_on_success "APP" laToNy
           (start 200 "  2,789 km  ") "2,789 km" H1).
Defined.

Lemma upstream_failure_isolated_witness :
  (props_userId alice = Some "user-1" /\
   truthy "user-1" = true /\
   fst (checkCache (toolCacheKey densest) (start 501 "osmium")) = Ok None /\
   checkBalance (TOKEN_DB (start 501 "osmium")) "user-1" (toolCost densest)
     = (Ok (mkBalanceCheck true 10), TOKEN_DB (start 501 "osmium")) /\
   sufficient (mkBalanceCheck true 10) = true /\
   clientResult "APP" densest (start 501 "osmium")
     = Throw (ErrorObject
         "Failed to get detailed analysis: WolframAlpha could not interpret the query. Suggestions: osmium")) /\
  exists w' evs,
    invoke alice "APP" densest (start 501 "osmium") =
      (Ok (mkToolResponse
             [mkContentItem "text"
                ("Error: " +:+ messageOrString
                   (ErrorObject
                      "Failed to get detailed analysis: WolframAlpha could not interpret the query. Suggestions: osmium"))]
             (Some true)),
       w') /\
    log w' = log (start 501 "osmium") ++ evs /\
    count is_fetch evs = 1%nat /\
    count is_sanitize evs = O /\
    count is_consume evs = O /\
    count is_cache_put evs = O /\
    TOKEN_DB w' = TOKEN_DB (start 501 "osmium") /\
    CACHE_KV w' =
      snd (kv_get (CACHE_KV (start 501 "osmium")) (toolCacheKey densest)).
Proof.
  assert (H1 : props_userId alice = Some "user-1") by reflexivity.
  assert (H2 : truthy "user-1" = true) by reflexivity.
  assert (H3 : fst (checkCache (toolCacheKey densest) (start 501 "osmium"))
               = Ok None) by (vm_compute; reflexivity).
  assert (H4 : checkBalance (TOKEN_DB (start 501 "osmium")) "user-1"
                 (toolCost densest)
               = (Ok (mkBalanceCheck true 10), TOKEN_DB (start 501 "osmium")))
    by (vm_compute; reflexivity).
  assert (H5 : sufficient (mkBalanceCheck true 10) = true) by reflexivity.
  assert (H6 : clientResult "APP" densest (start 501 "osmium")
               = Throw (ErrorObject
                   "Failed to get detailed analysis: WolframAlpha could not interpret the query. Suggestions: osmium"))
    by (vm_compute; reflexivity).
  split; [repeat split; assumption|].
  exact (upstream_failure_isolated alice "APP" densest (start 501 "osmium")
           "user-1" (mkBalanceCheck true 10) (TOKEN_DB (start 501 "osmium"))
           _ H1 H2 H3 H4 H5 H6).
Defined.

Lemma missing_user_touches_nothing_witness :
  truthy_opt (props_userId (Some (mkProps (Some "")))) = false /\
  exists w',
    invoke (Some (mkProps (Some ""))) "APP" laToNy (start 200 "2,789 km") =
      (Ok (mkToolResponse
             [mkContentItem "text"
                "Error: User ID not found in authentication context"]
             (Some true)),
       w') /\
    log w' = log (start 200 "2,789 km")
             ++ [EvRandomUUID
                   (fst (randomUUID (crypto (start 200 "2,789 km"))))] /\
    CACHE_KV w' = CACHE_KV (start 200 "2,789 km") /\
    TOKEN_DB w' = TOKEN_DB (start 200 "2,789 km") /\
    network w' = network (start 200 "2,789 km").
Proof.
  assert (H1 : truthy_opt (props_userId (Some (mkProps (Some "")))) = false)
    by reflexivity.
  split; [exact H1|].
  exact (missing_user_touches_nothing (Some (mkProps (Some ""))) "APP" laToNy
           (start 200 "2,789 km") H1).
Defined.

Lemma charge_failure_not_cached_witness :
  (props_userId alice = Some "user-1" /\
   truthy "user-1" = true /\
   fst (checkCache (toolCacheKey laToNy) (ledgerDown 200 "2,789 km"))
     = Ok None /\
   checkBalance (TOKEN_DB (ledgerDown 200 "2,789 km")) "user-1"
     (toolCost laToNy)
     = (Ok (mkBalanceCheck true 10), TOKEN_DB (ledgerDown 200 "2,789 km")) /\
   sufficient (mkBalanceCheck true 10) = true /\
   clientResult "APP" laToNy (ledgerDown 200 "2,789 km") = Ok "2,789 km" /\
   sanitizeOutput "2,789 km" (toolSanitizeOptions laToNy) = Ok "2,789 km" /\
   redactPII "2,789 km" redactOptions = Ok (mkRedactResult "2,789 km" []) /\
   consumeTokensWithRetry (TOKEN_DB (ledgerDown 200 "2,789 km"))
     (toolConsumption laToNy "user-1"
        (redacted (mkRedactResult "2,789 km" []))
        (fst (randomUUID (crypto (ledgerDown 200 "2,789 km")))))
     = (Throw (ErrorObject "D1 unavailable"),
        TOKEN_DB (ledgerDown 200 "2,789 km"))) /\
  exists w' evs,
    invoke alice "APP" laToNy (ledgerDown 200 "2,789 km") =
      (Ok (mkToolResponse
             [mkContentItem "text"
                ("Error: " +:+ messageOrString (ErrorObject "D1 unavailable"))]
             (Some true)),
       w') /\
    log w' = log (ledgerDown 200 "2,789 km") ++ evs /\
    count is_fetch evs = 1%nat /\
    count is_consume evs = 1%nat /\
    count is_cache_put evs = O /\
    TOKEN_DB w' = TOKEN_DB (ledgerDown 200 "2,789 km") /\
    CACHE_KV w' =
      snd (kv_get (CACHE_KV (ledgerDown 200 "2,789 km"))
             (toolCacheKey laToNy)).
Proof.
  assert (H1 : props_userId alice = Some "user-1") by reflexivity.
  assert (H2 : truthy "user-1" = true) by reflexivity.
  assert (H3 : fst (checkCache (toolCacheKey laToNy)
                      (ledgerDown 200 "2,789 km")) = Ok None)
    by (vm_compute; reflexivity).
  assert (H4 : checkBalance (TOKEN_DB (ledgerDown 200 "2,789 km")) "user-1"
                 (toolCost laToNy)
               = (Ok (mkBalanceCheck true 10),
                  TOKEN_DB (ledgerDown 200 "2,789 km")))
    by (vm_compute; reflexivity).
  assert (H5 : sufficient (mkBalanceCheck true 10) = true) by reflexivity.
  assert (H6 : clientResult "APP" laToNy (ledgerDown 200 "2,789 km")
               = Ok "2,789 km") by (vm_compute; reflexivity).
  assert (H7 : sanitizeOutput "2,789 km" (toolSanitizeOptions laToNy)
               = Ok "2,789 km") by (vm_compute; reflexivity).
  assert (H8 : redactPII "2,789 km" redactOptions
               = Ok (mkRedactResult "2,789 km" []))
    by (vm_compute; reflexivity).
  assert (H9 : consumeTokensWithRetry (TOKEN_DB (ledgerDown 200 "2,789 km"))
                 (toolConsumption laToNy "user-1"
                    (redacted (mkRedactResult "2,789 km" []))
                    (fst (randomUUID (crypto (ledgerDown 200 "2,789 km")))))
               = (Throw (ErrorObject "D1 unavailable"),
                  TOKEN_DB (ledgerDown 200 "2,789 km")))
    by (vm_compute; reflexivity).
  split; [repeat split; assumption|].
  exact (charge_failure_not_cached alice "APP" laToNy
           (ledgerDown 200 "2,789 km") "user-1" (mkBalanceCheck true 10)
           _ _ _ _ _ _ H1 H2 H3 H4 H5 H6 H7 H8 H9).
Defined.

Lemma error_never_cached_witness :
  exists resp w' evs,
    invoke alice "APP" laToNy (ledgerDown 200 "2,789 km") = (Ok resp, w') /\
    log w' = log (ledgerDown 200 "2,789 km") ++ evs /\
    isError resp = Some true /\
    count is_cache_put evs = O.
Proof.
  destruct (error_never_cached alice "APP" laToNy (ledgerDown 200 "2,789 km"))
    as (resp & w' & evs & Hinv & Hlog & Herr & _).
  exists resp, w', evs. split; [exact Hinv|]. split; [exact Hlog|].
  assert (Hflag : isError resp = Some true).
  { vm_compute in Hinv. injection Hinv as <- _. reflexivity. }
  split; [exact Hflag|].
  exact (proj1 (Herr Hflag)).
Defined.


Lemma store_then_check_witness :
  ((forall v k' key', fst (kv_put k' key' v 900) = Ok tt ->
      fst (kv_get (snd (kv_put k' key' v 900)) key') = Ok (Some v)) /\
   fst (kv_put (CACHE_KV (start 200 "")) "wolfram:getQuickAnswer:pi"
          "3.14159" 900) = Ok tt) /\
  fst (checkCache "wolfram:getQuickAnswer:pi"
         (snd (storeCache "wolfram:getQuickAnswer:pi" "3.14159"
                 (start 200 ""))))
    = Ok (if truthy "3.14159" then Some "3.14159" else None).
Proof.
  assert (H0 : forall v k' key', fst (kv_put k' key' v 900) = Ok tt ->
            fst (kv_get (snd (kv_put k' key' v 900)) key') = Ok (Some v))
    by exact Memory_KV_faithful.
  assert (H1 : fst (kv_put (CACHE_KV (start 200 ""))
                      "wolfram:getQuickAnswer:pi" "3.14159" 900) = Ok tt)
    by reflexivity.
  split; [split; assumption|].
  exact (store_then_check "wolfram:getQuickAnswer:pi" "3.14159"
           (start 200 "") H0 H1).
Defined.

(** A second user repeats the first user's request. *)
Lemma repeated_request_served_from_cache_witness :
  ((forall v k' key, fst (kv_put k' key v 900) = Ok tt ->
      fst (kv_get (snd (kv_put k' key v 900)) key) = Ok (Some v)) /\
   props_userId alice = Some "user-1" /\
   truthy "user-1" = true /\
   props_userId bob = Some "user-2" /\
   truthy "user-2" = true /\
   fst (checkCache (toolCacheKey laToNy) (start 200 "2,789 km")) = Ok None /\
   fst (invoke alice "APP" laToNy (start 200 "2,789 km"))
     = Ok (mkToolResponse [mkContentItem "text" "2,789 km"] None) /\
   truthy "2,789 km" = true /\
   fst (kv_put
          (snd (kv_get (CACHE_KV (start 200 "2,789 km"))
                  (toolCacheKey laToNy)))
          (toolCacheKey laToNy) "2,789 km" 900) = Ok tt) /\
  exists w2 evs2,
    invoke bob "APP" laToNy afterFirst =
      (Ok (mkToolResponse
             [mkContentItem "text"
                ("[Cached Result]" +:+ LF +:+ LF +:+ "2,789 km")]
             None),
       w2) /\
    log w2 = log afterFirst ++ evs2 /\
    count is_check_balance evs2 = O /\
    count is_fetch evs2 = O /\
    count is_consume evs2 = O /\
    count is_cache_put evs2 = O /\
    TOKEN_DB w2 = TOKEN_DB afterFirst.
Proof.
  assert (H0 : forall v k' key, fst (kv_put k' key v 900) = Ok tt ->
            fst (kv_get (snd (kv_put k' key v 900)) key) = Ok (Some v))
    by exact Memory_KV_faithful.
  assert (H1 : props_userId alice = Some "user-1") by reflexivity.
  assert (H2 : truthy "user-1" = true) by reflexivity.
  assert (H1' : props_userId bob = Some "user-2") by reflexivity.
  assert (H2' : truthy "user-2" = true) by reflexivity.
  assert (H3 : fst (checkCache (toolCacheKey laToNy) (start 200 "2,789 km"))
               = Ok None) by (vm_compute; reflexivity).
  assert (H4 : fst (invoke alice "APP" laToNy (start 200 "2,789 km"))
               = Ok (mkToolResponse [mkContentItem "text" "2,789 km"] None))
    by (vm_compute; reflexivity).
  assert (H5 : truthy "2,789 km" = true) by reflexivity.
  assert (H6 : fst (kv_put
                 (snd (kv_get (CACHE_KV (start 200 "2,789 km"))
                         (toolCacheKey laToNy)))
                 (toolCacheKey laToNy) "2,789 km" 900) = Ok tt)
    by (vm_compute; reflexivity).
  split; [repeat split; assumption|].
  exact (repeated_request_served_from_cache alice bob "APP" "APP" laToNy
           (start 200 "2,789 km") "user-1" "user-2" "2,789 km"
           H0 H1 H2 H1' H2' H3 H4 H5 H6).
Defined.

Lemma cache_keys_separate_requests_witness :
  (detailedAnalysisSchema "10 densest elemental metals" (Some 1000) = true /\
   detailedAnalysisSchema "10 densest elemental metals" (Some 10000) = true) /\
  toolCacheKey (DetailedAnalysis "10 densest elemental metals" (Some 1000))
    <> toolCacheKey
         (DetailedAnalysis "10 densest elemental metals" (Some 10000)).
Proof.
  assert (H1 : detailedAnalysisSchema "10 densest elemental metals"
                 (Some 1000) = true) by reflexivity.
  assert (H2 : detailedAnalysisSchema "10 densest elemental metals"
                 (Some 10000) = true) by reflexivity.
  split; [split; assumption|].
  intros Heq.
  destruct cache_keys_separate_requests as (_ & _ & _ & Hlimit & _).
  pose proof (Hlimit _ _ _ H1 H2 Heq) as Hm. discriminate Hm.
Defined.

Lemma detailed_limits_under_schema_witness :
  detailedAnalysisSchema "10 densest elemental metals" (Some 1500) = true /\
  maxLength (toolSanitizeOptions densest) = 1500 /\
  In ("maxchars", "1500")
     (searchParams
        (detailedAnalysisURL "APP" "10 densest elemental metals" (Some 1500))).
Proof.
  assert (H1 : detailedAnalysisSchema "10 densest elemental metals"
                 (Some 1500) = true) by reflexivity.
  split; [exact H1|].
  destruct (detailed_limits_under_schema "APP"
              "10 densest elemental metals" (Some 1500) H1)
    as (Hlen & _ & Hparam & _).
  split; [exact Hlen|].
  apply Hparam. exists 1500. split; reflexivity.
Defined.
